(** * Backtest dashboard: REST client and page component

    A shallow embedding of the two TypeScript sources of the backtest
    dashboard of dsa-web:

    - [api/backtest.ts]: the object [backtestApi] with [run], [getResults],
      [getOverallPerformance] and [getStockPerformance];
    - [pages/BacktestPage.tsx]: the component state and its handlers
      [fetchResults], [fetchPerformance], [handleRun], [handleFilter] and
      [handlePageChange].

    JavaScript values are an inductive type, promises are outcomes
    (resolved or rejected), an [async] function is a tree of transport
    requests with continuations, and the component is a store together
    with the pool of suspended [async] calls. *)

From Stdlib Require Import ZArith NArith List String Ascii Bool Lia Relations.
Import ListNotations.

Local Open Scope string_scope.
Local Open Scope Z_scope.

Set Warnings "-register-all".

(* ================================================================= *)
(** ** JavaScript values *)

(** Numbers are restricted to integers and strings to code units below
    256; both cover page numbers, counts and stock codes.  [JErr] is an
    object whose prototype chain contains [Error.prototype]; [JObj] is
    any other non-array object.  Property lists are kept in insertion
    order. *)
Inductive JsVal : Type :=
| JUndefined
| JNull
| JBool (b : bool)
| JNum (n : Z)
| JStr (s : string)
| JArr (elems : list JsVal)
| JObj (props : list (string * JsVal))
| JErr (props : list (string * JsVal)).

(** [!!v] *)
Definition truthy (v : JsVal) : bool :=
  match v with
  | JUndefined | JNull => false
  | JBool b => b
  | JNum n => negb (n =? 0)
  | JStr s => negb (s =? "")%string
  | JArr _ | JObj _ | JErr _ => true
  end.

(** [typeof v] *)
Definition typeof (v : JsVal) : string :=
  match v with
  | JUndefined => "undefined"
  | JNull => "object"
  | JBool _ => "boolean"
  | JNum _ => "number"
  | JStr _ => "string"
  | JArr _ | JObj _ | JErr _ => "object"
  end.

(** [v instanceof Error] *)
Definition instanceof_Error (v : JsVal) : bool :=
  match v with JErr _ => true | _ => false end.

(** First binding of [k] in a property list. *)
Fixpoint lookup (k : string) (l : list (string * JsVal)) : option JsVal :=
  match l with
  | [] => None
  | (k', v) :: l' => if (k =? k')%string then Some v else lookup k l'
  end.

(** [o[k] = v]: overwrite in place, or append a new property. *)
Fixpoint assign (k : string) (v : JsVal) (l : list (string * JsVal))
  : list (string * JsVal) :=
  match l with
  | [] => [(k, v)]
  | (k', v') :: l' =>
      if (k =? k')%string then (k, v) :: l' else (k', v') :: assign k v l'
  end.

(** [k in v], for a [v] whose [typeof] is ["object"] and that is not
    [null].  Index properties of arrays are not modelled. *)
Definition has_property (k : string) (v : JsVal) : bool :=
  match v with
  | JObj l | JErr l => match lookup k l with Some _ => true | None => false end
  | JArr _ => (k =? "length")%string
  | _ => false
  end.

(** [v.k] for a [v] that is neither [null] nor [undefined]. *)
Definition member (v : JsVal) (k : string) : JsVal :=
  match v with
  | JObj l | JErr l =>
      match lookup k l with Some x => x | None => JUndefined end
  | JArr l =>
      if (k =? "length")%string then JNum (Z.of_nat (List.length l))
      else JUndefined
  | JStr s =>
      if (k =? "length")%string then JNum (Z.of_nat (String.length s))
      else JUndefined
  | _ => JUndefined
  end.

Definition nullish (v : JsVal) : bool :=
  match v with JUndefined | JNull => true | _ => false end.

(** [v?.k] *)
Definition opt_member (v : JsVal) (k : string) : JsVal :=
  if nullish v then JUndefined else member v k.

(** [v === n] for a number literal [n]. *)
Definition strict_eq_num (v : JsVal) (n : Z) : bool :=
  match v with JNum m => m =? n | _ => false end.

(** [a || b] *)
Definition js_or (a b : JsVal) : JsVal := if truthy a then a else b.

(** The [TypeError] raised by a property access on [null] or [undefined]
    and by a call of something that is not a function. *)
Definition TypeError (message : string) : JsVal :=
  JErr [("name", JStr "TypeError"); ("message", JStr message)].

(** Optional fields of typed parameter objects. *)
Definition of_option {A : Type} (inj : A -> JsVal) (o : option A) : JsVal :=
  match o with Some a => inj a | None => JUndefined end.

(* ================================================================= *)
(** ** Strings *)

(** White space and line terminators removed by [String.prototype.trim],
    for code units below 256. *)
Definition is_white_space (c : ascii) : bool :=
  let n := N_of_ascii c in
  ((9 <=? n) && (n <=? 13) || (n =? 32) || (n =? 160))%N.

Fixpoint trim_start (s : string) : string :=
  match s with
  | EmptyString => EmptyString
  | String c r => if is_white_space c then trim_start r else s
  end.

Fixpoint trim_end (s : string) : string :=
  match s with
  | EmptyString => EmptyString
  | String c r =>
      match trim_end r with
      | EmptyString => if is_white_space c then EmptyString
                       else String c EmptyString
      | r' => String c r'
      end
  end.

(** [s.trim()] *)
Definition trim (s : string) : string := trim_end (trim_start s).

(** [s || undefined] for a string [s]. *)
Definition or_undefined (s : string) : option string :=
  if truthy (JStr s) then Some s else None.

Definition hex_digit (n : N) : ascii :=
  ascii_of_N (if (n <? 10)%N then 48 + n else 55 + n)%N.

Definition percent_byte (b : N) : string :=
  String "%" (String (hex_digit (b / 16)) (String (hex_digit (b mod 16)) "")).

Definition is_unreserved (c : ascii) : bool :=
  let n := N_of_ascii c in
  ((65 <=? n) && (n <=? 90) || (97 <=? n) && (n <=? 122)
   || (48 <=? n) && (n <=? 57))%N
  || existsb (Ascii.eqb c) (list_ascii_of_string "-_.!~*'()").

(** [encodeURIComponent]: unreserved characters stay, every other code
    unit is written as the percent-escaped bytes of its UTF-8 encoding
    (one byte below 128, two bytes from 128 to 255). *)
Definition encode_unit (c : ascii) : string :=
  let n := N_of_ascii c in
  if is_unreserved c then String c ""
  else if (n <? 128)%N then percent_byte n
  else (percent_byte (192 + n / 64) ++ percent_byte (128 + n mod 64))%N.

Fixpoint encodeURIComponent (s : string) : string :=
  match s with
  | EmptyString => EmptyString
  | String c r => encode_unit c ++ encodeURIComponent r
  end.

(* ================================================================= *)
(** ** Promises and the transport *)

(** How a promise settles. *)
Inductive Outcome (A : Type) : Type :=
| Resolve (a : A)
| Reject (e : JsVal).
Arguments Resolve {A} a.
Arguments Reject {A} e.

(** What [apiClient] resolves to; only [data] is read. *)
Record AxiosResponse : Type := { data : JsVal }.

(** [apiClient.get(url, config)] and [apiClient.post(url, body)]; a [get]
    without a second argument has [config = JUndefined]. *)
Inductive Request : Type :=
| Get (url : string) (config : JsVal)
| Post (url : string) (body : JsVal).

(** An [async] function of the client: it returns, throws, or awaits a
    transport request and goes on with the way the request settled. *)
Inductive Async (A : Type) : Type :=
| Ret (a : A)
| Throw (e : JsVal)
| Await (r : Request) (k : Outcome AxiosResponse -> Async A).
Arguments Ret {A} a.
Arguments Throw {A} e.
Arguments Await {A} r k.

Module AsyncOps.

Fixpoint bind {A B : Type} (p : Async A) (f : A -> Async B) : Async B :=
  match p with
  | Ret a => f a
  | Throw e => Throw e
  | Await r k => Await r (fun o => bind (k o) f)
  end.

(** [try { p } catch (err) { h err }] *)
Fixpoint try_catch {A : Type} (p : Async A) (h : JsVal -> Async A)
  : Async A :=
  match p with
  | Ret a => Ret a
  | Throw e => h e
  | Await r k => Await r (fun o => try_catch (k o) h)
  end.

(** [await apiClient.get(...)], [await apiClient.post(...)] *)
Definition await (r : Request) : Async AxiosResponse :=
  Await r (fun o => match o with Resolve x => Ret x | Reject e => Throw e end).

(** [v.k], which throws on [null] and [undefined]. *)
Definition get (v : JsVal) (k : string) : Async JsVal :=
  if nullish v
  then Throw (TypeError ("Cannot read properties of null or undefined, reading " ++ k))
  else Ret (member v k).

(** [v.map(f)]: only an array has a [map] method among the values
    modelled; calling the missing method throws. *)
Definition array_map (v : JsVal) (f : JsVal -> JsVal) : Async JsVal :=
  match v with
  | JArr l => Ret (JArr (List.map f l))
  | JUndefined | JNull =>
      Throw (TypeError "Cannot read properties of null or undefined, reading map")
  | _ => Throw (TypeError "map is not a function")
  end.

End AsyncOps.

Declare Scope async_scope.
Delimit Scope async_scope with async.
Notation "x <- p ;; q" := (AsyncOps.bind p (fun x => q))
  (at level 61, p at next level, right associativity) : async_scope.

(** Runs an [async] function against a transport: how the returned promise
    settles, and the requests that were sent, in order. *)
Fixpoint exec {A : Type} (transport : Request -> Outcome AxiosResponse)
  (p : Async A) : Outcome A * list Request :=
  match p with
  | Ret a => (Resolve a, [])
  | Throw e => (Reject e, [])
  | Await r k =>
      let (o, sent) := exec transport (k (transport r)) in (o, r :: sent)
  end.

(* ================================================================= *)
(** ** Key naming *)

Definition to_upper (c : ascii) : ascii :=
  let n := N_of_ascii c in
  if ((97 <=? n) && (n <=? 122))%N then ascii_of_N (n - 32) else c.

(** Modelled from the spec: the text of one property name in camel case.
    The wire format separates words with an underscore
    ([eval_window_days]); the display format drops each separator and
    capitalises the character after it ([evalWindowDays]). *)
Fixpoint camelKey (s : string) : string :=
  match s with
  | EmptyString => EmptyString
  | String c EmptyString => s
  | String c (String d r as t) =>
      if Ascii.eqb c "_" then String (to_upper d) (camelKey r)
      else String c (camelKey t)
  end.

(** Modelled from the spec: [toCamelCase] of [api/utils], which is not
    among the sources.  The spec says that the client normalises the
    field-naming convention of a response and that each item of a result
    page is normalised individually: the keys of the object given are
    converted to camel case, its values are kept, and a value that is not
    a plain object is returned as it is. *)
Definition toCamelCase (v : JsVal) : JsVal :=
  match v with
  | JObj l => JObj (List.map (fun kv => (camelKey (fst kv), snd kv)) l)
  | _ => v
  end.

(* ================================================================= *)
(** ** The client: [backtestApi] *)

Module BacktestRunRequest.
(** [{ code?: string; force?: boolean; evalWindowDays?: number;
      limit?: number }] *)
Record t : Type :=
  { code : option string;
    force : option bool;
    evalWindowDays : option Z;
    limit : option Z }.
Definition empty : t :=
  {| code := None; force := None; evalWindowDays := None; limit := None |}.
End BacktestRunRequest.

Module ResultsParams.
(** [{ code?: string; page?: number; limit?: number }] *)
Record t : Type :=
  { code : option string;
    page : option Z;
    limit : option Z }.
Definition empty : t := {| code := None; page := None; limit := None |}.
End ResultsParams.

Module backtestApi.
Import AsyncOps.
Local Open Scope async_scope.

Definition run (params : BacktestRunRequest.t) : Async JsVal :=
  let code := of_option JStr (BacktestRunRequest.code params) in
  let force := of_option JBool (BacktestRunRequest.force params) in
  let evalWindowDays :=
    of_option JNum (BacktestRunRequest.evalWindowDays params) in
  let limit := of_option JNum (BacktestRunRequest.limit params) in
  let requestData := [] in
  let requestData :=
    if truthy code then assign "code" code requestData else requestData in
  let requestData :=
    if truthy force then assign "force" force requestData
    else requestData in
  let requestData :=
    if truthy evalWindowDays
    then assign "eval_window_days" evalWindowDays requestData
    else requestData in
  let requestData :=
    if truthy limit then assign "limit" limit requestData
    else requestData in
  response <- await (Post "/api/v1/backtest/run" (JObj requestData)) ;;
  Ret (toCamelCase (data response)).

Definition getResults (params : ResultsParams.t) : Async JsVal :=
  let code := of_option JStr (ResultsParams.code params) in
  let page :=
    match ResultsParams.page params with Some p => JNum p | None => JNum 1 end in
  let limit :=
    match ResultsParams.limit params with Some l => JNum l | None => JNum 20 end in
  let queryParams := [("page", page); ("limit", limit)] in
  let queryParams :=
    if truthy code then assign "code" code queryParams else queryParams in
  response <- await (Get "/api/v1/backtest/results"
                         (JObj [("params", JObj queryParams)])) ;;
  let data := toCamelCase (data response) in
  total <- get data "total" ;;
  page <- get data "page" ;;
  limit <- get data "limit" ;;
  items <- get data "items" ;;
  items <- array_map (js_or items (JArr [])) toCamelCase ;;
  Ret (JObj [("total", total); ("page", page); ("limit", limit);
             ("items", items)]).

Definition getOverallPerformance : Async JsVal :=
  try_catch
    (response <- await (Get "/api/v1/backtest/performance" JUndefined) ;;
     Ret (toCamelCase (data response)))
    (fun err =>
       if truthy err && (typeof err =? "object")%string
          && has_property "response" err
       then
         let axiosErr := err in
         if strict_eq_num (opt_member (member axiosErr "response") "status") 404
         then Ret JNull
         else Throw err
       else Throw err).

Definition getStockPerformance (code : string) : Async JsVal :=
  try_catch
    (response <- await (Get ("/api/v1/backtest/performance/"
                               ++ encodeURIComponent code) JUndefined) ;;
     Ret (toCamelCase (data response)))
    (fun err =>
       if truthy err && (typeof err =? "object")%string
          && has_property "response" err
       then
         let axiosErr := err in
         if strict_eq_num (opt_member (member axiosErr "response") "status") 404
         then Ret JNull
         else Throw err
       else Throw err).

End backtestApi.

(* ================================================================= *)
(** ** The page component: state *)

(** The [useState] cells of [BacktestPage].  Cells that hold what the
    server sent are untyped values. *)
Record PageState : Type :=
  { codeFilter : string;
    isRunning : bool;
    runResult : JsVal;
    runError : JsVal;
    results : JsVal;
    totalResults : JsVal;
    currentPage : JsVal;
    isLoadingResults : bool;
    overallPerf : JsVal;
    stockPerf : JsVal;
    isLoadingPerf : bool }.

Definition initialState : PageState :=
  {| codeFilter := ""; isRunning := false; runResult := JNull;
     runError := JNull; results := JArr []; totalResults := JNum 0;
     currentPage := JNum 1; isLoadingResults := false;
     overallPerf := JNull; stockPerf := JNull; isLoadingPerf := false |}.

Definition pageSize : Z := 20.

Definition setCodeFilter (v : string) (s : PageState) : PageState :=
  {| codeFilter := v; isRunning := isRunning s; runResult := runResult s;
     runError := runError s; results := results s;
     totalResults := totalResults s; currentPage := currentPage s;
     isLoadingResults := isLoadingResults s; overallPerf := overallPerf s;
     stockPerf := stockPerf s; isLoadingPerf := isLoadingPerf s |}.

Definition setIsRunning (v : bool) (s : PageState) : PageState :=
  {| codeFilter := codeFilter s; isRunning := v; runResult := runResult s;
     runError := runError s; results := results s;
     totalResults := totalResults s; currentPage := currentPage s;
     isLoadingResults := isLoadingResults s; overallPerf := overallPerf s;
     stockPerf := stockPerf s; isLoadingPerf := isLoadingPerf s |}.

Definition setRunResult (v : JsVal) (s : PageState) : PageState :=
  {| codeFilter := codeFilter s; isRunning := isRunning s; runResult := v;
     runError := runError s; results := results s;
     totalResults := totalResults s; currentPage := currentPage s;
     isLoadingResults := isLoadingResults s; overallPerf := overallPerf s;
     stockPerf := stockPerf s; isLoadingPerf := isLoadingPerf s |}.

Definition setRunError (v : JsVal) (s : PageState) : PageState :=
  {| codeFilter := codeFilter s; isRunning := isRunning s;
     runResult := runResult s; runError := v; results := results s;
     totalResults := totalResults s; currentPage := currentPage s;
     isLoadingResults := isLoadingResults s; overallPerf := overallPerf s;
     stockPerf := stockPerf s; isLoadingPerf := isLoadingPerf s |}.

Definition setResults (v : JsVal) (s : PageState) : PageState :=
  {| codeFilter := codeFilter s; isRunning := isRunning s;
     runResult := runResult s; runError := runError s; results := v;
     totalResults := totalResults s; currentPage := currentPage s;
     isLoadingResults := isLoadingResults s; overallPerf := overallPerf s;
     stockPerf := stockPerf s; isLoadingPerf := isLoadingPerf s |}.

Definition setTotalResults (v : JsVal) (s : PageState) : PageState :=
  {| codeFilter := codeFilter s; isRunning := isRunning s;
     runResult := runResult s; runError := runError s; results := results s;
     totalResults := v; currentPage := currentPage s;
     isLoadingResults := isLoadingResults s; overallPerf := overallPerf s;
     stockPerf := stockPerf s; isLoadingPerf := isLoadingPerf s |}.

Definition setCurrentPage (v : JsVal) (s : PageState) : PageState :=
  {| codeFilter := codeFilter s; isRunning := isRunning s;
     runResult := runResult s; runError := runError s; results := results s;
     totalResults := totalResults s; currentPage := v;
     isLoadingResults := isLoadingResults s; overallPerf := overallPerf s;
     stockPerf := stockPerf s; isLoadingPerf := isLoadingPerf s |}.

Definition setIsLoadingResults (v : bool) (s : PageState) : PageState :=
  {| codeFilter := codeFilter s; isRunning := isRunning s;
     runResult := runResult s; runError := runError s; results := results s;
     totalResults := totalResults s; currentPage := currentPage s;
     isLoadingResults := v; overallPerf := overallPerf s;
     stockPerf := stockPerf s; isLoadingPerf := isLoadingPerf s |}.

Definition setOverallPerf (v : JsVal) (s : PageState) : PageState :=
  {| codeFilter := codeFilter s; isRunning := isRunning s;
     runResult := runResult s; runError := runError s; results := results s;
     totalResults := totalResults s; currentPage := currentPage s;
     isLoadingResults := isLoadingResults s; overallPerf := v;
     stockPerf := stockPerf s; isLoadingPerf := isLoadingPerf s |}.

Definition setStockPerf (v : JsVal) (s : PageState) : PageState :=
  {| codeFilter := codeFilter s; isRunning := isRunning s;
     runResult := runResult s; runError := runError s; results := results s;
     totalResults := totalResults s; currentPage := currentPage s;
     isLoadingResults := isLoadingResults s; overallPerf := overallPerf s;
     stockPerf := v; isLoadingPerf := isLoadingPerf s |}.

Definition setIsLoadingPerf (v : bool) (s : PageState) : PageState :=
  {| codeFilter := codeFilter s; isRunning := isRunning s;
     runResult := runResult s; runError := runError s; results := results s;
     totalResults := totalResults s; currentPage := currentPage s;
     isLoadingResults := isLoadingResults s; overallPerf := overallPerf s;
     stockPerf := stockPerf s; isLoadingPerf := v |}.

(* ================================================================= *)
(** ** The page component: programs *)

(** The body of a handler or of an [async] function of the page.  Such a
    body never reads the store: it sees the state through the closure of
    the render that created it, which the embedding passes as an
    argument, and it writes through the setters.  [Spawn] is a call of an
    [async] function whose promise is dropped: the callee runs up to its
    first [await], then the caller goes on. *)
Inductive Prog (A : Type) : Type :=
| Done (a : A)
| Fail (e : JsVal)
| Suspend (r : Request) (k : Outcome AxiosResponse -> Prog A)
| SetState (f : PageState -> PageState) (k : Prog A)
| ConsoleError (message : string) (e : JsVal) (k : Prog A)
| Spawn (child : Prog unit) (k : Prog A).
Arguments Done {A} a.
Arguments Fail {A} e.
Arguments Suspend {A} r k.
Arguments SetState {A} f k.
Arguments ConsoleError {A} message e k.
Arguments Spawn {A} child k.

Module ProgOps.

Fixpoint bind {A B : Type} (p : Prog A) (f : A -> Prog B) : Prog B :=
  match p with
  | Done a => f a
  | Fail e => Fail e
  | Suspend r k => Suspend r (fun o => bind (k o) f)
  | SetState g k => SetState g (bind k f)
  | ConsoleError m e k => ConsoleError m e (bind k f)
  | Spawn c k => Spawn c (bind k f)
  end.

(** [try { p } catch (err) { h err }] *)
Fixpoint try_catch {A : Type} (p : Prog A) (h : JsVal -> Prog A) : Prog A :=
  match p with
  | Done a => Done a
  | Fail e => h e
  | Suspend r k => Suspend r (fun o => try_catch (k o) h)
  | SetState g k => SetState g (try_catch k h)
  | ConsoleError m e k => ConsoleError m e (try_catch k h)
  | Spawn c k => Spawn c (try_catch k h)
  end.

(** [try { p } finally { f }]: [f] runs however [p] completes, and the
    completion of [p] stands when [f] completes normally. *)
Fixpoint finally {A : Type} (p : Prog A) (f : Prog unit) : Prog A :=
  match p with
  | Done a => bind f (fun _ => Done a)
  | Fail e => bind f (fun _ => Fail e)
  | Suspend r k => Suspend r (fun o => finally (k o) f)
  | SetState g k => SetState g (finally k f)
  | ConsoleError m e k => ConsoleError m e (finally k f)
  | Spawn c k => Spawn c (finally k f)
  end.

(** [await] of a call of the client. *)
Fixpoint lift {A : Type} (p : Async A) : Prog A :=
  match p with
  | Ret a => Done a
  | Throw e => Fail e
  | Await r k => Suspend r (fun o => lift (k o))
  end.

Definition set (f : PageState -> PageState) : Prog unit :=
  SetState f (Done tt).

Definition console_error (message : string) (e : JsVal) : Prog unit :=
  ConsoleError message e (Done tt).

(** A call of an [async] function without [await]. *)
Definition call (child : Prog unit) : Prog unit := Spawn child (Done tt).

End ProgOps.

Declare Scope prog_scope.
Delimit Scope prog_scope with prog.
Notation "x <- p ;; q" := (ProgOps.bind p (fun x => q))
  (at level 61, p at next level, right associativity) : prog_scope.
Notation "p ;; q" := (ProgOps.bind p (fun _ => q))
  (at level 61, right associativity) : prog_scope.

Module BacktestPage.
Import ProgOps.
Local Open Scope prog_scope.

Definition fetchResults (page : option Z) (code : option string)
  : Prog unit :=
  let page := match page with Some p => p | None => 1 end in
  set (setIsLoadingResults true) ;;
  finally
    (try_catch
       (response <- lift (backtestApi.getResults
                            {| ResultsParams.code :=
                                 match code with
                                 | Some c => or_undefined c
                                 | None => None
                                 end;
                               ResultsParams.page := Some page;
                               ResultsParams.limit := Some pageSize |}) ;;
        items <- lift (AsyncOps.get response "items") ;;
        set (setResults items) ;;
        total <- lift (AsyncOps.get response "total") ;;
        set (setTotalResults total) ;;
        page <- lift (AsyncOps.get response "page") ;;
        set (setCurrentPage page))
       (fun err => console_error "Failed to fetch backtest results:" err))
    (set (setIsLoadingResults false)).

Definition fetchPerformance (code : option string) : Prog unit :=
  set (setIsLoadingPerf true) ;;
  finally
    (try_catch
       (overall <- lift backtestApi.getOverallPerformance ;;
        set (setOverallPerf overall) ;;
        if truthy (of_option JStr code)
        then
          match code with
          | Some c =>
              stock <- lift (backtestApi.getStockPerformance c) ;;
              set (setStockPerf stock)
          | None => Done tt
          end
        else set (setStockPerf JNull))
       (fun err => console_error "Failed to fetch performance:" err))
    (set (setIsLoadingPerf false)).

(** The effect run on mount. *)
Definition initialLoad : Prog unit :=
  call (fetchResults (Some 1) None) ;;
  call (fetchPerformance None).

(** [handleRun] of the render whose state is [snap]. *)
Definition handleRun (snap : PageState) : Prog unit :=
  set (setIsRunning true) ;;
  set (setRunResult JNull) ;;
  set (setRunError JNull) ;;
  finally
    (try_catch
       (let code := or_undefined (trim (codeFilter snap)) in
        response <- lift (backtestApi.run
                            {| BacktestRunRequest.code := code;
                               BacktestRunRequest.force := None;
                               BacktestRunRequest.evalWindowDays := None;
                               BacktestRunRequest.limit := None |}) ;;
        set (setRunResult response) ;;
        call (fetchResults (Some 1) (or_undefined (trim (codeFilter snap)))) ;;
        call (fetchPerformance (or_undefined (trim (codeFilter snap)))))
       (fun err =>
          set (setRunError (if instanceof_Error err
                            then member err "message"
                            else JStr "Backtest failed"))))
    (set (setIsRunning false)).

(** [handleFilter] of the render whose state is [snap]. *)
Definition handleFilter (snap : PageState) : Prog unit :=
  let code := or_undefined (trim (codeFilter snap)) in
  set (setCurrentPage (JNum 1)) ;;
  call (fetchResults (Some 1) code) ;;
  call (fetchPerformance code).

(** [handleKeyDown] of the render whose state is [snap], for the key of
    the event. *)
Definition handleKeyDown (snap : PageState) (key : string) : Prog unit :=
  if (key =? "Enter")%string then handleFilter snap else Done tt.

(** [handlePageChange] of the render whose state is [snap]. *)
Definition handlePageChange (snap : PageState) (page : Z) : Prog unit :=
  call (fetchResults (Some page) (or_undefined (trim (codeFilter snap)))).

End BacktestPage.

(* ================================================================= *)
(** ** The page component: execution *)

(** A suspended [async] call: the request it waits for and what it does
    when the request settles. *)
Record Task : Type :=
  { awaiting : Request;
    resume : Outcome AxiosResponse -> Prog unit }.

Inductive Event : Type :=
| Sent (r : Request)
| Logged (message : string) (e : JsVal)
| Uncaught (e : JsVal).

Record Config : Type :=
  { store : PageState;
    pool : list Task;
    trace : list Event }.

(** Runs a body until it suspends or completes: setters write the store,
    a request is sent when it is awaited and its task joins the pool, a
    spawned call runs up to its own first [await] before the caller goes
    on, and a body that ends by throwing leaves an [Uncaught] event. *)
Fixpoint sync (p : Prog unit) (c : Config) : Config :=
  match p with
  | Done _ => c
  | Fail e =>
      {| store := store c; pool := pool c; trace := trace c ++ [Uncaught e] |}
  | Suspend r k =>
      {| store := store c;
         pool := pool c ++ [{| awaiting := r; resume := k |}];
         trace := trace c ++ [Sent r] |}
  | SetState f k =>
      sync k {| store := f (store c); pool := pool c; trace := trace c |}
  | ConsoleError m e k =>
      sync k {| store := store c; pool := pool c;
                trace := trace c ++ [Logged m e] |}
  | Spawn child k => sync k (sync child c)
  end.

(** The requests of a trace, in the order they were sent. *)
Fixpoint requests (l : list Event) : list Request :=
  match l with
  | [] => []
  | Sent r :: l' => r :: requests l'
  | _ :: l' => requests l'
  end.

Fixpoint uncaught (l : list Event) : list JsVal :=
  match l with
  | [] => []
  | Uncaught e :: l' => e :: uncaught l'
  | _ :: l' => uncaught l'
  end.

Fixpoint logged (l : list Event) : list (string * JsVal) :=
  match l with
  | [] => []
  | Logged m e :: l' => (m, e) :: logged l'
  | _ :: l' => logged l'
  end.

Definition initialConfig : Config :=
  {| store := initialState; pool := []; trace := [] |}.

(** Settles the suspended calls one after the other, oldest first, each
    with the answer of [transport], at most [fuel] of them. *)
Fixpoint drain (fuel : nat) (transport : Request -> Outcome AxiosResponse)
  (c : Config) : Config :=
  match fuel with
  | O => c
  | S fuel' =>
      match pool c with
      | [] => c
      | t :: rest =>
          drain fuel' transport
            (sync (resume t (transport (awaiting t)))
                  {| store := store c; pool := rest; trace := trace c |})
      end
  end.


(** One transition of the page: a pending request settles, in whatever
    way, and its call is resumed; or the user edits the filter box, submits
    the filter, starts a run or changes the page.  A handler runs with the
    store of the moment as the state of its render.  The filter box
    stores its text in upper case and the view disables some controls
    while a request is pending; any text is allowed here and the guards
    are left out, so that every behaviour of the page is a behaviour of
    [step]. *)
Inductive step : Config -> Config -> Prop :=
| step_settle (c : Config) (before after : list Task) (t : Task)
    (o : Outcome AxiosResponse) :
    pool c = (before ++ t :: after)%list ->
    step c (sync (resume t o)
                 {| store := store c; pool := (before ++ after)%list;
                    trace := trace c |})
| step_edit (c : Config) (text : string) :
    step c {| store := setCodeFilter text (store c); pool := pool c;
              trace := trace c |}
| step_filter (c : Config) :
    step c (sync (BacktestPage.handleFilter (store c)) c)
| step_run (c : Config) :
    step c (sync (BacktestPage.handleRun (store c)) c)
| step_page (c : Config) (page : Z) :
    step c (sync (BacktestPage.handlePageChange (store c) page) c).

(** The page after its first render. *)
Definition mounted : Config := sync BacktestPage.initialLoad initialConfig.

Definition reachable : Config -> Prop :=
  clos_refl_trans_n1 Config step mounted.

(** A body that never completes by throwing, whatever the answers to its
    requests, and that spawns such bodies only. *)
Fixpoint quiet (A : Type) (p : Prog A) {struct p} : Prop :=
  match p with
  | Done _ => True
  | Fail _ => False
  | Suspend _ k => forall o, quiet A (k o)
  | SetState _ k => quiet A k
  | ConsoleError _ _ k => quiet A k
  | Spawn child k => quiet unit child /\ quiet A k
  end.

(** A body that may throw but spawns quiet bodies only. *)
Fixpoint tame (A : Type) (p : Prog A) {struct p} : Prop :=
  match p with
  | Done _ => True
  | Fail _ => True
  | Suspend _ k => forall o, tame A (k o)
  | SetState _ k => tame A k
  | ConsoleError _ _ k => tame A k
  | Spawn child k => quiet unit child /\ tame A k
  end.

Definition quiet_task (t : Task) : Prop := forall o, quiet unit (resume t o).

(** The invariant of the page: nothing was thrown so far, and no
    suspended call will throw. *)
Definition calm (c : Config) : Prop :=
  uncaught (trace c) = [] /\ Forall quiet_task (pool c).

(* ================================================================= *)
(** ** Vocabulary of the specification *)

(** The four requests of the external interface. *)
Definition run_command (body : list (string * JsVal)) : Request :=
  Post "/api/v1/backtest/run" (JObj body).

Definition results_query (page limit : Z) (filter : option string) : Request :=
  Get "/api/v1/backtest/results"
      (JObj [("params",
              JObj ([("page", JNum page); ("limit", JNum limit)]
                    ++ match filter with
                       | Some code => [("code", JStr code)]
                       | None => []
                       end))]).

Definition overall_query : Request :=
  Get "/api/v1/backtest/performance" JUndefined.

Definition stock_query (code : string) : Request :=
  Get ("/api/v1/backtest/performance/" ++ encodeURIComponent code) JUndefined.

(** The two performance calls of the client and the request of each. *)
Inductive PerformanceCall : Type :=
| Overall
| Stock (code : string).

Definition performance_call (c : PerformanceCall) : Async JsVal :=
  match c with
  | Overall => backtestApi.getOverallPerformance
  | Stock code => backtestApi.getStockPerformance code
  end.

Definition performance_query (c : PerformanceCall) : Request :=
  match c with
  | Overall => overall_query
  | Stock code => stock_query code
  end.

Definition own_props (v : JsVal) : option (list (string * JsVal)) :=
  match v with
  | JObj l | JErr l => Some l
  | _ => None
  end.

(** The HTTP status a failure carries: the [status] of the [response]
    attached to the error, when there is one. *)
Definition http_status (err : JsVal) : option Z :=
  match own_props err with
  | Some l =>
      match lookup "response" l with
      | Some r =>
          match own_props r with
          | Some rl =>
              match lookup "status" rl with
              | Some (JNum n) => Some n
              | _ => None
              end
          | None => None
          end
      | None => None
      end
  | None => None
  end.

Definition is_not_found (err : JsVal) : bool :=
  match http_status err with
  | Some n => n =? 404
  | None => false
  end.

(** A code that is sent: an absent and an empty code are both no code. *)
Definition nonempty (code : option string) : option string :=
  match code with
  | Some EmptyString => None
  | _ => code
  end.

(** The filter of a render: the text of the filter box without the white
    space around it, or none when nothing is left. *)
Definition active_filter (s : PageState) : option string :=
  nonempty (Some (trim (codeFilter s))).

(** The body of the run request: the fields of the parameters that hold
    a value other than the empty code, [false] and [0], under their wire
    names, in the order the client writes them. *)
Definition optional_field (k : string) (v : JsVal) : list (string * JsVal) :=
  if truthy v then [(k, v)] else [].

Definition run_body (params : BacktestRunRequest.t) : list (string * JsVal) :=
  optional_field "code" (of_option JStr (BacktestRunRequest.code params))
  ++ optional_field "force" (of_option JBool (BacktestRunRequest.force params))
  ++ optional_field "eval_window_days"
       (of_option JNum (BacktestRunRequest.evalWindowDays params))
  ++ optional_field "limit" (of_option JNum (BacktestRunRequest.limit params)).

(** The request of a result page: page 1 and 20 rows unless given. *)
Definition results_request (params : ResultsParams.t) : Request :=
  results_query
    (match ResultsParams.page params with Some p => p | None => 1 end)
    (match ResultsParams.limit params with Some l => l | None => 20 end)
    (nonempty (ResultsParams.code params)).

(** The items a result page carries: the array under [items], and no
    item when the field is missing or holds [null] or another falsy value.
    Any other value under [items] is not a result page. *)
Definition items_field (props : list (string * JsVal)) : option (list JsVal) :=
  match lookup "items" props with
  | None => Some []
  | Some (JArr l) => Some l
  | Some v => if truthy v then None else Some []
  end.

Definition is_lower (c : ascii) : bool :=
  let n := N_of_ascii c in ((97 <=? n) && (n <=? 122))%N.

Fixpoint all_lower (s : string) : bool :=
  match s with
  | EmptyString => true
  | String c r => is_lower c && all_lower r
  end.

(** The page of the example of the spec, with its items left open. *)
Definition example_page (items : list JsVal) : JsVal :=
  JObj [("total", JNum 45); ("page", JNum 2); ("limit", JNum 20);
        ("items", JArr items)].

Definition example_params : ResultsParams.t :=
  {| ResultsParams.code := Some "AAPL";
     ResultsParams.page := Some 2;
     ResultsParams.limit := Some 20 |}.

(** The promise that has settled as [o]. *)
Definition settle {A : Type} (o : Outcome A) : Async A :=
  match o with
  | Resolve a => Ret a
  | Reject e => Throw e
  end.

(** What is left of a call once its first request has settled as [o]. *)
Definition answer {A : Type} (p : Async A) (o : Outcome AxiosResponse)
  : Async A :=
  match p with
  | Await _ k => k o
  | _ => p
  end.

(** How each call of the client settles, given how its request did. *)
Definition run_outcome (o : Outcome AxiosResponse) : Outcome JsVal :=
  match o with
  | Resolve response => Resolve (toCamelCase (data response))
  | Reject e => Reject e
  end.

Definition results_outcome (o : Outcome AxiosResponse) : Outcome JsVal :=
  match o with
  | Resolve response =>
      let d := toCamelCase (data response) in
      if nullish d
      then Reject (TypeError
                     "Cannot read properties of null or undefined, reading total")
      else
        match js_or (member d "items") (JArr []) with
        | JArr l =>
            Resolve (JObj [("total", member d "total");
                           ("page", member d "page");
                           ("limit", member d "limit");
                           ("items", JArr (List.map toCamelCase l))])
        | _ => Reject (TypeError "map is not a function")
        end
  | Reject e => Reject e
  end.

Definition performance_outcome (o : Outcome AxiosResponse) : Outcome JsVal :=
  match o with
  | Resolve response => Resolve (toCamelCase (data response))
  | Reject err => if is_not_found err then Resolve JNull else Reject err
  end.

(** One item of a result page and its normalised form: the same values
    under the camel-case names. *)
Definition keys_camelised (item out : JsVal) : Prop :=
  match item with
  | JObj props =>
      exists props',
        out = JObj props'
        /\ List.map fst props' = List.map camelKey (List.map fst props)
        /\ List.map snd props' = List.map snd props
  | _ => out = item
  end.

(** Answers of a server used in the examples. *)
Definition server_error (status : Z) : JsVal :=
  JErr [("message", JStr "Request failed");
        ("response", JObj [("status", JNum status)])].

Definition respond (d : JsVal) : Outcome AxiosResponse :=
  Resolve {| data := d |}.

(** What the page does when a suspended call is resumed *)

Definition results_arrived (out : Outcome JsVal) (c : Config) : Config :=
  match out with
  | Resolve response =>
      {| store :=
           setIsLoadingResults false
             (setCurrentPage (member response "page")
                (setTotalResults (member response "total")
                   (setResults (member response "items") (store c))));
         pool := pool c;
         trace := trace c |}
  | Reject err =>
      {| store := setIsLoadingResults false (store c);
         pool := pool c;
         trace := trace c ++ [Logged "Failed to fetch backtest results:" err] |}
  end.

Definition stock_arrived (out : Outcome JsVal) (c : Config) : Config :=
  match out with
  | Resolve stock =>
      {| store := setIsLoadingPerf false (setStockPerf stock (store c));
         pool := pool c;
         trace := trace c |}
  | Reject err =>
      {| store := setIsLoadingPerf false (store c);
         pool := pool c;
         trace := trace c ++ [Logged "Failed to fetch performance:" err] |}
  end.

(** A suspended fetch of the result list. *)
Definition ResultsTask (t : Task) (page : Z) (filter : option string) : Prop :=
  awaiting t = results_query page pageSize filter
  /\ forall o c, sync (resume t o) c = results_arrived (results_outcome o) c.

(** A suspended fetch of the metrics of one code. *)
Definition StockTask (t : Task) (code : string) : Prop :=
  awaiting t = stock_query code
  /\ forall o c, sync (resume t o) c = stock_arrived (performance_outcome o) c.

(** A suspended fetch of the performance metrics, waiting for the overall
    metrics: a failure is logged; otherwise the overall metrics are
    stored, and the metrics of the filter's code are cleared when there is
    no code and requested when there is one. *)
Definition PerformanceTask (t : Task) (filter : option string) : Prop :=
  awaiting t = overall_query
  /\ forall o c,
      match performance_outcome o with
      | Reject err =>
          sync (resume t o) c
          = {| store := setIsLoadingPerf false (store c);
               pool := pool c;
               trace := trace c ++ [Logged "Failed to fetch performance:" err] |}
      | Resolve overall =>
          match filter with
          | None =>
              sync (resume t o) c
              = {| store := setIsLoadingPerf false
                              (setStockPerf JNull
                                 (setOverallPerf overall (store c)));
                   pool := pool c;
                   trace := trace c |}
          | Some code =>
              exists ts,
                StockTask ts code
                /\ sync (resume t o) c
                   = {| store := setOverallPerf overall (store c);
                        pool := pool c ++ [ts];
                        trace := trace c ++ [Sent (stock_query code)] |}
          end
      end.

(** A server whose overall-metrics endpoint fails with status 500 and
    that answers every other request with an empty object. *)
Definition overall_down (r : Request) : Outcome AxiosResponse :=
  match r with
  | Get url _ =>
      if (url =? "/api/v1/backtest/performance")%string
      then Reject (server_error 500)
      else respond (JObj [])
  | Post _ _ => respond (JObj [])
  end.

(** A server that has overall metrics and whose per-code endpoint fails
    with status 500. *)
Definition stock_down (r : Request) : Outcome AxiosResponse :=
  match r with
  | Get url _ =>
      if (url =? "/api/v1/backtest/performance")%string
      then respond (JObj [("win_rate_pct", JNum 60)])
      else Reject (server_error 500)
  | Post _ _ => respond (JObj [])
  end.

(** The per-code request that follows the overall metrics: there is one
    when the filter holds a code and the overall fetch did not fail. *)
Definition stock_followup (filter : option string) (overall : Outcome JsVal)
  : list Request :=
  match filter, overall with
  | Some code, Resolve _ => [stock_query code]
  | _, _ => []
  end.

(** *** More of the page: the run, the kinds of suspended calls, the view *)

(** The text of the error banner after a failed run. *)
Definition run_message (err : JsVal) : JsVal :=
  if instanceof_Error err then member err "message" else JStr "Backtest failed".

(** The body of the run request of the page: the code of the filter and
    nothing else. *)
Definition filter_body (filter : option string) : list (string * JsVal) :=
  match filter with
  | Some code => [("code", JStr code)]
  | None => []
  end.

(** A suspended run: on success the summary is stored and the two fetches
    start; on failure the message is stored; either way the run is over. *)
Definition RunTask (t : Task) (filter : option string) : Prop :=
  awaiting t = run_command (filter_body filter)
  /\ forall o c,
      match run_outcome o with
      | Resolve response =>
          exists tr tp,
            ResultsTask tr 1 filter
            /\ PerformanceTask tp filter
            /\ sync (resume t o) c
               = {| store := setIsRunning false
                               (setIsLoadingPerf true
                                  (setIsLoadingResults true
                                     (setRunResult response (store c))));
                    pool := pool c ++ [tr; tp];
                    trace := trace c
                             ++ [Sent (results_query 1 pageSize filter);
                                 Sent overall_query] |}
      | Reject err =>
          sync (resume t o) c
          = {| store := setIsRunning false
                          (setRunError (run_message err) (store c));
               pool := pool c;
               trace := trace c |}
      end.

(** The suspended calls of the page other than a run. *)
Definition FetchTask (t : Task) : Prop :=
  (exists page filter, ResultsTask t page filter)
  \/ (exists filter, PerformanceTask t filter)
  \/ (exists code, StockTask t code).

Definition KnownTask (t : Task) : Prop :=
  (exists filter, RunTask t filter) \/ FetchTask t.

Definition is_array (v : JsVal) : Prop := exists l, v = JArr l.

(** The requests the page sends: a run with at most a code, a result page
    of [pageSize] rows, the overall metrics, the metrics of one code. *)
Definition page_request (r : Request) : Prop :=
  (exists filter, r = run_command (filter_body filter))
  \/ (exists page filter, r = results_query page pageSize filter)
  \/ r = overall_query
  \/ (exists code, r = stock_query code).

Definition is_run_request (r : Request) : bool :=
  match r with
  | Post _ _ => true
  | Get _ _ => false
  end.

(** The number of runs whose request has not settled. *)
Definition pending_runs (c : Config) : nat :=
  List.length (List.filter (fun t => is_run_request (awaiting t)) (pool c)).

(** The [disabled] attributes of the view: the filter box and the run
    button while a run is going on, the filter button while results are
    loading. *)
Definition inputDisabled (s : PageState) : bool := isRunning s.
Definition filterButtonDisabled (s : PageState) : bool := isLoadingResults s.
Definition runButtonDisabled (s : PageState) : bool := isRunning s.

(** One transition of the page as the view allows it: [step] with the
    controls that are disabled left out.  A key pressed in the filter box
    goes through [handleKeyDown]; the pagination control is not among the
    sources and may ask for any page at any time. *)
Inductive ui_step : Config -> Config -> Prop :=
| ui_settle (c : Config) (before after : list Task) (t : Task)
    (o : Outcome AxiosResponse) :
    pool c = (before ++ t :: after)%list ->
    ui_step c (sync (resume t o)
                    {| store := store c; pool := (before ++ after)%list;
                       trace := trace c |})
| ui_edit (c : Config) (text : string) :
    inputDisabled (store c) = false ->
    ui_step c {| store := setCodeFilter text (store c); pool := pool c;
                 trace := trace c |}
| ui_key (c : Config) (key : string) :
    inputDisabled (store c) = false ->
    ui_step c (sync (BacktestPage.handleKeyDown (store c) key) c)
| ui_filter (c : Config) :
    filterButtonDisabled (store c) = false ->
    ui_step c (sync (BacktestPage.handleFilter (store c)) c)
| ui_run (c : Config) :
    runButtonDisabled (store c) = false ->
    ui_step c (sync (BacktestPage.handleRun (store c)) c)
| ui_page (c : Config) (page : Z) :
    ui_step c (sync (BacktestPage.handlePageChange (store c) page) c).

Definition ui_reachable : Config -> Prop :=
  clos_refl_trans_n1 Config ui_step mounted.


(** What a fetch, started or resumed, may do to the page: it leaves the
    run cells and the filter text alone, keeps [results] an array, and
    every call it suspends is a fetch whose request it has sent. *)
Definition FetchEffect (c c' : Config) : Prop :=
  isRunning (store c') = isRunning (store c)
  /\ runResult (store c') = runResult (store c)
  /\ runError (store c') = runError (store c)
  /\ codeFilter (store c') = codeFilter (store c)
  /\ (is_array (results (store c)) -> is_array (results (store c')))
  /\ exists new,
      pool c' = (pool c ++ new)%list
      /\ Forall FetchTask new
      /\ requests (trace c')
         = (requests (trace c) ++ List.map awaiting new)%list.

(** Invariant of every behaviour of the page. *)
Definition PageInv (c : Config) : Prop :=
  Forall KnownTask (pool c)
  /\ is_array (results (store c))
  /\ Forall page_request (requests (trace c)).

(** Invariant of the behaviours the view allows: the run flag counts the
    pending runs, banner cells are empty during a run, and at most one of
    them is filled. *)
Definition RunInv (c : Config) : Prop :=
  Forall KnownTask (pool c)
  /\ pending_runs c = (if isRunning (store c) then 1 else 0)%nat
  /\ (isRunning (store c) = true ->
      runResult (store c) = JNull /\ runError (store c) = JNull)
  /\ (runResult (store c) = JNull \/ runError (store c) = JNull).

(** The characters [encodeURIComponent] can produce that are not
    unreserved: the percent sign of an escape. *)
Definition is_segment_char (c : ascii) : bool :=
  is_unreserved c || Ascii.eqb c "%".

(** [<Badge variant=... glow>children</Badge>] *)
Record Badge : Type :=
  { variant : string;
    glow : bool;
    children : string }.

Definition outcomeBadge (outcome : option string) : Badge :=
  if negb (truthy (of_option JStr outcome))
  then {| variant := "default"; glow := false; children := "--" |}
  else
    match outcome with
    | Some o =>
        if (o =? "win")%string
        then {| variant := "success"; glow := true; children := "WIN" |}
        else if (o =? "loss")%string
        then {| variant := "danger"; glow := true; children := "LOSS" |}
        else if (o =? "neutral")%string
        then {| variant := "warning"; glow := false; children := "NEUTRAL" |}
        else {| variant := "default"; glow := false; children := o |}
    | None => {| variant := "default"; glow := false; children := "--" |}
    end.

Definition statusBadge (status : string) : Badge :=
  if (status =? "completed")%string
  then {| variant := "success"; glow := false; children := "completed" |}
  else if (status =? "insufficient")%string
  then {| variant := "warning"; glow := false; children := "insufficient" |}
  else if (status =? "error")%string
  then {| variant := "danger"; glow := false; children := "error" |}
  else {| variant := "default"; glow := false; children := status |}.

(** The branch of the performance panel that is rendered: the spinner
    while loading, the card of the overall metrics when there are some,
    the "no backtest data yet" text otherwise. *)
Inductive PerformancePanel : Type :=
| PerformanceSpinner
| PerformanceCard (metrics : JsVal)
| NoBacktestData.

Definition performance_panel (s : PageState) : PerformancePanel :=
  if isLoadingPerf s then PerformanceSpinner
  else if truthy (overallPerf s) then PerformanceCard (overallPerf s)
  else NoBacktestData.

(** The branch of the results section that is rendered: the spinner while
    loading, the "No Results" text when [results.length === 0], the table
    with the pagination control otherwise.  [results] is an array in
    every state of the page, so that [length] is read without a throw. *)
Inductive ResultsSection : Type :=
| ResultsSpinner
| NoResults
| ResultsTable (rows : JsVal).

Definition results_section (s : PageState) : ResultsSection :=
  if isLoadingResults s then ResultsSpinner
  else if strict_eq_num (member (results s) "length") 0 then NoResults
  else ResultsTable (results s).

(* ================================================================= *)
(** ** The client *)

Section Client.

Variable transport : Request -> Outcome AxiosResponse.

Lemma exec_settle {A : Type} (o : Outcome A) :
  exec transport (settle o) = (o, []).
Proof. destruct o; reflexivity. Qed.

(** A call whose first request is [r] and that is settled once [r] is:
    one request, and the outcome [f] computes from the answer. *)
Lemma exec_single {A : Type} (p : Async A) (r : Request)
  (f : Outcome AxiosResponse -> Outcome A) :
  p = Await r (answer p) ->
  (forall o, answer p o = settle (f o)) ->
  exec transport p = (f (transport r), [r]).
Proof.
  intros Hp Hf. rewrite Hp. simpl.
  rewrite Hf, exec_settle. reflexivity.
Qed.

(** The guard of the two [catch] blocks is the test "the failure carries
    status 404". *)
Lemma catch_guard (err : JsVal) :
  (if truthy err && (typeof err =? "object")%string
      && has_property "response" err
   then strict_eq_num (opt_member (member err "response") "status") 404
   else false)
  = is_not_found err.
Proof.
  unfold is_not_found, http_status.
  destruct err as [| | b | n | s | l | l | l]; cbn; try reflexivity.
  - destruct b; reflexivity.
  - destruct (n =? 0); reflexivity.
  - destruct (s =? "")%string; reflexivity.
  - destruct (lookup "response" l) as [r|]; cbn; [|reflexivity].
    destruct r as [| | b | n | s | l' | l' | l']; cbn; try reflexivity;
      destruct (lookup "status" l') as [[]|]; reflexivity.
  - destruct (lookup "response" l) as [r|]; cbn; [|reflexivity].
    destruct r as [| | b | n | s | l' | l' | l']; cbn; try reflexivity;
      destruct (lookup "status" l') as [[]|]; reflexivity.
Qed.

Lemma catch_settles (err : JsVal) :
  (if truthy err && (typeof err =? "object")%string
      && has_property "response" err
   then
     if strict_eq_num (opt_member (member err "response") "status") 404
     then Ret JNull
     else Throw err
   else Throw err)
  = settle (if is_not_found err then Resolve JNull else Reject err).
Proof.
  rewrite <- catch_guard.
  destruct (truthy err && (typeof err =? "object")%string
            && has_property "response" err); [|reflexivity].
  destruct (strict_eq_num _ 404); reflexivity.
Qed.

Lemma performance_answer (c : PerformanceCall) (o : Outcome AxiosResponse) :
  answer (performance_call c) o = settle (performance_outcome o).
Proof.
  destruct c; destruct o as [response | err]; simpl; try reflexivity;
    apply catch_settles.
Qed.

Lemma performance_exec (c : PerformanceCall) :
  exec transport (performance_call c)
  = (performance_outcome (transport (performance_query c)),
     [performance_query c]).
Proof.
  apply exec_single.
  - destruct c; reflexivity.
  - apply performance_answer.
Qed.

Lemma run_request (params : BacktestRunRequest.t) :
  backtestApi.run params
  = Await (run_command (run_body params)) (answer (backtestApi.run params)).
Proof.
  destruct params as [[code|] [[|]|] [days|] [lim|]];
    unfold backtestApi.run, run_body, optional_field; simpl;
    repeat match goal with
           | |- context [negb ?b] => destruct (negb b)
           end; reflexivity.
Qed.

Lemma run_answer (params : BacktestRunRequest.t) (o : Outcome AxiosResponse) :
  answer (backtestApi.run params) o = settle (run_outcome o).
Proof. destruct o; reflexivity. Qed.

Lemma run_exec (params : BacktestRunRequest.t) :
  exec transport (backtestApi.run params)
  = (run_outcome (transport (run_command (run_body params))),
     [run_command (run_body params)]).
Proof. apply exec_single; [apply run_request | apply run_answer]. Qed.

Lemma getResults_request (params : ResultsParams.t) :
  backtestApi.getResults params
  = Await (results_request params) (answer (backtestApi.getResults params)).
Proof.
  destruct params as [[[|c code]|] [p|] [l|]]; reflexivity.
Qed.

Lemma getResults_answer (params : ResultsParams.t) (o : Outcome AxiosResponse) :
  answer (backtestApi.getResults params) o = settle (results_outcome o).
Proof.
  destruct o as [[d] | e]; [|reflexivity].
  unfold backtestApi.getResults, answer, results_outcome, AsyncOps.await.
  simpl. unfold AsyncOps.get.
  destruct (nullish (toCamelCase d)); simpl; [reflexivity|].
  unfold js_or.
  destruct (member (toCamelCase d) "items") as [| | [|] | n | s | l | l | l];
    simpl; try reflexivity.
  - destruct (n =? 0); reflexivity.
  - destruct s; reflexivity.
Qed.

Lemma getResults_exec (params : ResultsParams.t) :
  exec transport (backtestApi.getResults params)
  = (results_outcome (transport (results_request params)),
     [results_request params]).
Proof.
  apply exec_single; [apply getResults_request | apply getResults_answer].
Qed.

End Client.

(* ================================================================= *)
(** ** Key naming: lemmas *)

Lemma to_upper_not_lower (c : ascii) : is_lower (to_upper c) = false.
Proof. destruct c as [[] [] [] [] [] [] [] []]; reflexivity. Qed.

Lemma camelKey_step (c d : ascii) (r : string) :
  camelKey (String c (String d r))
  = if Ascii.eqb c "_" then String (to_upper d) (camelKey r)
    else String c (camelKey (String d r)).
Proof. reflexivity. Qed.

Lemma camelKey_lower_bounded (n : nat) :
  forall k, (String.length k <= n)%nat ->
            all_lower (camelKey k) = true -> camelKey k = k.
Proof.
  induction n as [|n IH]; intros k Hlen Hlow.
  - destruct k; [reflexivity | simpl in Hlen; lia].
  - destruct k as [|c [|d r]]; try reflexivity.
    simpl in Hlen. rewrite camelKey_step in Hlow |- *.
    destruct (Ascii.eqb c "_").
    + cbn [all_lower] in Hlow. rewrite to_upper_not_lower in Hlow.
      discriminate.
    + cbn [all_lower] in Hlow. apply andb_true_iff in Hlow as [_ Hlow].
      f_equal. apply IH; [simpl; lia | exact Hlow].
Qed.

(** A name written in lower-case letters only is the camel-case form of
    itself and of no other name. *)
Lemma camelKey_lower (name k : string) :
  all_lower name = true -> camelKey name = name ->
  (name =? camelKey k)%string = (name =? k)%string.
Proof.
  intros Hlow Hself.
  destruct (String.eqb_spec name (camelKey k)) as [E|E];
    destruct (String.eqb_spec name k) as [E'|E']; try reflexivity.
  - exfalso. apply E'. rewrite E.
    apply (camelKey_lower_bounded (String.length k)); [lia|].
    rewrite <- E. exact Hlow.
  - exfalso. apply E. rewrite <- E'. symmetry. exact Hself.
Qed.

Lemma lookup_camel (name : string) (props : list (string * JsVal)) :
  all_lower name = true -> camelKey name = name ->
  lookup name (List.map (fun kv => (camelKey (fst kv), snd kv)) props)
  = lookup name props.
Proof.
  intros Hlow Hself.
  induction props as [|[k v] props IH]; [reflexivity|].
  simpl. rewrite (camelKey_lower name k Hlow Hself), IH. reflexivity.
Qed.

Lemma toCamelCase_keys (item : JsVal) : keys_camelised item (toCamelCase item).
Proof.
  destruct item as [| | b | n | s | l | props | props]; try reflexivity.
  simpl. eexists. split; [reflexivity|]. split.
  - rewrite !List.map_map. reflexivity.
  - rewrite List.map_map. reflexivity.
Qed.

(* ================================================================= *)
(** ** The client: claims *)

(** C1. A call of [getOverallPerformance] or of [getStockPerformance]
    whose request fails with status 404 resolves to [null]; it does not
    reject. *)
Theorem performance_not_found_resolves_null
  (transport : Request -> Outcome AxiosResponse)
  (c : PerformanceCall) (err : JsVal) :
  http_status err = Some 404 ->
  transport (performance_query c) = Reject err ->
  exec transport (performance_call c) = (Resolve JNull, [performance_query c]).
Proof.
  intros Hstatus Hfail.
  rewrite performance_exec, Hfail. simpl.
  unfold is_not_found. rewrite Hstatus. reflexivity.
Qed.

Lemma performance_not_found_witness :
  exec (fun _ => Reject (server_error 404)) (performance_call Overall)
  = (Resolve JNull, [overall_query])
  /\ exec (fun _ => Reject (server_error 404)) (performance_call (Stock "AAPL"))
     = (Resolve JNull, [stock_query "AAPL"]).
Proof.
  split.
  - apply (performance_not_found_resolves_null
             (fun _ => Reject (server_error 404)) Overall (server_error 404));
      reflexivity.
  - apply (performance_not_found_resolves_null
             (fun _ => Reject (server_error 404)) (Stock "AAPL")
             (server_error 404)); reflexivity.
Defined.

(** C6. A call of [getOverallPerformance] or of [getStockPerformance]
    whose request fails with an error that is not a 404 response rejects
    with that very error. *)
Theorem performance_failure_rejects_unchanged
  (transport : Request -> Outcome AxiosResponse)
  (c : PerformanceCall) (err : JsVal) :
  http_status err <> Some 404 ->
  transport (performance_query c) = Reject err ->
  exec transport (performance_call c) = (Reject err, [performance_query c]).
Proof.
  intros Hstatus Hfail.
  rewrite performance_exec, Hfail. simpl.
  unfold is_not_found.
  destruct (http_status err) as [n|]; [|reflexivity].
  destruct (Z.eqb_spec n 404) as [E|E]; [|reflexivity].
  exfalso. apply Hstatus. rewrite E. reflexivity.
Qed.

Lemma performance_failure_witness :
  exec (fun _ => Reject (server_error 500)) (performance_call Overall)
  = (Reject (server_error 500), [overall_query])
  /\ exec (fun _ => Reject (JStr "Network Error"))
          (performance_call (Stock "AAPL"))
     = (Reject (JStr "Network Error"), [stock_query "AAPL"]).
Proof.
  split.
  - apply (performance_failure_rejects_unchanged
             (fun _ => Reject (server_error 500)) Overall (server_error 500));
      [discriminate | reflexivity].
  - apply (performance_failure_rejects_unchanged
             (fun _ => Reject (JStr "Network Error")) (Stock "AAPL")
             (JStr "Network Error")); [discriminate | reflexivity].
Defined.

(** C7. [getResults] called with an empty parameter object sends one
    request, with page 1 and limit 20 and without a code parameter. *)
Theorem getResults_defaults (transport : Request -> Outcome AxiosResponse) :
  snd (exec transport (backtestApi.getResults ResultsParams.empty))
  = [Get "/api/v1/backtest/results"
         (JObj [("params", JObj [("page", JNum 1); ("limit", JNum 20)])])].
Proof. rewrite getResults_exec. reflexivity. Qed.

(** C9. [run] sends one request whose body holds, among [code], [force],
    [eval_window_days] and [limit], the fields that the parameters give
    (an empty code, [false] and [0] count as not given), each with the
    value of the parameters and [evalWindowDays] under its wire name, and
    no other field; the call settles as the transport does, so a transport
    error is the rejection of the call. *)
Theorem run_sends_optional_fields
  (transport : Request -> Outcome AxiosResponse)
  (params : BacktestRunRequest.t) :
  let body := run_body params in
  exec transport (backtestApi.run params)
  = (match transport (run_command body) with
     | Resolve response => Resolve (toCamelCase (data response))
     | Reject e => Reject e
     end, [Post "/api/v1/backtest/run" (JObj body)])
  /\ lookup "code" body
     = match BacktestRunRequest.code params with
       | Some c => if (c =? "")%string then None else Some (JStr c)
       | None => None
       end
  /\ lookup "force" body
     = match BacktestRunRequest.force params with
       | Some true => Some (JBool true)
       | _ => None
       end
  /\ lookup "eval_window_days" body
     = match BacktestRunRequest.evalWindowDays params with
       | Some d => if d =? 0 then None else Some (JNum d)
       | None => None
       end
  /\ lookup "limit" body
     = match BacktestRunRequest.limit params with
       | Some l => if l =? 0 then None else Some (JNum l)
       | None => None
       end
  /\ incl (List.map fst body) ["code"; "force"; "eval_window_days"; "limit"]
  /\ NoDup (List.map fst body).
Proof.
  intro body. split; [apply run_exec|].
  subst body.
  destruct params as [[code|] [[|]|] [days|] [lim|]];
    unfold run_body, optional_field; simpl;
    repeat match goal with
           | |- context [(?a =? ?b)%string] => destruct (a =? b)%string
           | |- context [?a =? ?b] => destruct (a =? b)
           end; simpl;
    repeat split;
    try (intros k Hk; simpl in *; tauto);
    repeat constructor; simpl; intuition discriminate.
Qed.

(** C2. The example of the spec: [getResults] with code AAPL, page 2 and
    limit 20, answered by a page with total 45, page 2, limit 20 and some
    items, returns that total, page and limit, with each item under
    camel-case keys. *)
Theorem getResults_example
  (transport : Request -> Outcome AxiosResponse) (items : list JsVal) :
  transport (results_query 2 20 (Some "AAPL")) = respond (example_page items) ->
  exec transport (backtestApi.getResults example_params)
  = (Resolve (JObj [("total", JNum 45); ("page", JNum 2); ("limit", JNum 20);
                    ("items", JArr (List.map toCamelCase items))]),
     [results_query 2 20 (Some "AAPL")])
  /\ Forall2 keys_camelised items (List.map toCamelCase items).
Proof.
  intro Hserver. split.
  - rewrite getResults_exec.
    change (results_request example_params)
      with (results_query 2 20 (Some "AAPL")).
    rewrite Hserver. reflexivity.
  - clear Hserver.
    induction items as [|item items IH]; simpl; constructor.
    + apply toCamelCase_keys.
    + exact IH.
Qed.

Lemma getResults_example_witness :
  exec (fun _ => respond (example_page
                            [JObj [("stock_code", JStr "AAPL");
                                   ("eval_status", JStr "completed")]]))
       (backtestApi.getResults example_params)
  = (Resolve (JObj [("total", JNum 45); ("page", JNum 2); ("limit", JNum 20);
                    ("items", JArr [JObj [("stockCode", JStr "AAPL");
                                          ("evalStatus", JStr "completed")]])]),
     [results_query 2 20 (Some "AAPL")]).
Proof.
  apply (getResults_example
           (fun _ => respond (example_page
                                [JObj [("stock_code", JStr "AAPL");
                                       ("eval_status", JStr "completed")]]))
           [JObj [("stock_code", JStr "AAPL");
                  ("eval_status", JStr "completed")]]).
  reflexivity.
Defined.

(** C10, as stated, fails: a response whose [items] is an object that is
    not an array makes [getResults] reject; it returns no value at all. *)
Lemma getResults_items_object_rejects :
  exec (fun _ => respond (JObj [("total", JNum 0); ("page", JNum 1);
                                ("limit", JNum 20); ("items", JObj [])]))
       (backtestApi.getResults ResultsParams.empty)
  = (Reject (TypeError "map is not a function"), [results_query 1 20 None]).
Proof. reflexivity. Qed.

(** C10, amended. For a response that is an object whose [items] is an
    array, is missing, or is [null] or another falsy value, [getResults]
    returns a value whose [items] is an array: the normalised items of the
    response, and the empty array when the server provided none. *)
Theorem getResults_items_array
  (transport : Request -> Outcome AxiosResponse)
  (params : ResultsParams.t)
  (props : list (string * JsVal)) (l : list JsVal) :
  transport (results_request params) = respond (JObj props) ->
  items_field props = Some l ->
  exists total page limit,
    exec transport (backtestApi.getResults params)
    = (Resolve (JObj [("total", total); ("page", page); ("limit", limit);
                      ("items", JArr (List.map toCamelCase l))]),
       [results_request params]).
Proof.
  intros Hserver Hitems.
  rewrite getResults_exec, Hserver.
  unfold respond, results_outcome. cbn [data toCamelCase nullish member].
  rewrite !lookup_camel by reflexivity.
  unfold items_field in Hitems. unfold js_or.
  destruct (lookup "items" props) as [v|].
  - destruct v as [| | [|] | n | s | l' | l' | l']; simpl in Hitems |- *;
      try discriminate;
      try (injection Hitems as <-; do 3 eexists; reflexivity).
    + destruct (n =? 0); simpl in Hitems |- *; [|discriminate].
      injection Hitems as <-. do 3 eexists; reflexivity.
    + destruct s; simpl in Hitems |- *; [|discriminate].
      injection Hitems as <-. do 3 eexists; reflexivity.
  - injection Hitems as <-. do 3 eexists; reflexivity.
Qed.

Lemma getResults_items_array_witness :
  exists total page limit,
    exec (fun _ => respond (JObj [("total", JNum 0); ("items", JNull)]))
         (backtestApi.getResults ResultsParams.empty)
    = (Resolve (JObj [("total", total); ("page", page); ("limit", limit);
                      ("items", JArr [])]),
       [results_request ResultsParams.empty]).
Proof.
  apply (getResults_items_array
           (fun _ => respond (JObj [("total", JNum 0); ("items", JNull)]))
           ResultsParams.empty
           [("total", JNum 0); ("items", JNull)] []); reflexivity.
Defined.

(* ================================================================= *)
(** ** The page: suspended fetches *)

Lemma results_outcome_object (o : Outcome AxiosResponse) (v : JsVal) :
  results_outcome o = Resolve v -> nullish v = false.
Proof.
  destruct o as [[d] | e]; simpl; [|discriminate].
  destruct (nullish (toCamelCase d)); [discriminate|].
  destruct (js_or _ _); try discriminate.
  intros [= <-]. reflexivity.
Qed.

Lemma nonempty_or_undefined (s : string) :
  nonempty (or_undefined s) = nonempty (Some s).
Proof. destruct s; reflexivity. Qed.

Lemma fetchResults_sync (page : option Z) (code : option string) (c : Config) :
  exists t,
    ResultsTask t (match page with Some p => p | None => 1 end) (nonempty code)
    /\ sync (BacktestPage.fetchResults page code) c
       = {| store := setIsLoadingResults true (store c);
            pool := pool c ++ [t];
            trace := trace c
                     ++ [Sent (results_query
                                 (match page with Some p => p | None => 1 end)
                                 pageSize (nonempty code))] |}.
Proof.
  unfold BacktestPage.fetchResults.
  rewrite getResults_request.
  destruct code as [[|a code]|];
    cbn -[answer backtestApi.getResults];
    (eexists; split; [|reflexivity]; split; [reflexivity|]);
    intros o c'; cbn -[answer backtestApi.getResults].
  all: rewrite getResults_answer;
    destruct (results_outcome o) as [v|e] eqn:E;
    [ apply results_outcome_object in E;
      cbn; unfold AsyncOps.get; rewrite E; reflexivity
    | reflexivity ].
Qed.

Lemma overall_request :
  backtestApi.getOverallPerformance
  = Await overall_query (answer backtestApi.getOverallPerformance).
Proof. reflexivity. Qed.

Lemma stock_request (code : string) :
  backtestApi.getStockPerformance code
  = Await (stock_query code) (answer (backtestApi.getStockPerformance code)).
Proof. reflexivity. Qed.

Lemma overall_answer (o : Outcome AxiosResponse) :
  answer backtestApi.getOverallPerformance o = settle (performance_outcome o).
Proof. exact (performance_answer Overall o). Qed.

Lemma stock_answer (code : string) (o : Outcome AxiosResponse) :
  answer (backtestApi.getStockPerformance code) o
  = settle (performance_outcome o).
Proof. exact (performance_answer (Stock code) o). Qed.

Lemma fetchPerformance_sync (code : option string) (c : Config) :
  exists t,
    PerformanceTask t (nonempty code)
    /\ sync (BacktestPage.fetchPerformance code) c
       = {| store := setIsLoadingPerf true (store c);
            pool := pool c ++ [t];
            trace := trace c ++ [Sent overall_query] |}.
Proof.
  unfold BacktestPage.fetchPerformance.
  rewrite overall_request.
  destruct code as [[|a code]|];
    cbn -[answer backtestApi.getOverallPerformance
          backtestApi.getStockPerformance];
    (eexists; split; [|reflexivity]; split; [reflexivity|]);
    intros o c';
    cbn -[answer backtestApi.getOverallPerformance
          backtestApi.getStockPerformance];
    rewrite overall_answer;
    destruct (performance_outcome o) as [overall|err];
    try reflexivity.
  rewrite stock_request.
  cbn -[answer backtestApi.getStockPerformance].
  eexists. split; [|reflexivity]. split; [reflexivity|].
  intros o2 c2. cbn -[answer backtestApi.getStockPerformance].
  rewrite stock_answer.
  destruct (performance_outcome o2); reflexivity.
Qed.

Lemma requests_app (l l' : list Event) :
  requests (l ++ l') = (requests l ++ requests l')%list.
Proof.
  induction l as [|[r | m e | e] l IH]; simpl; rewrite ?IH; reflexivity.
Qed.

Lemma uncaught_app (l l' : list Event) :
  uncaught (l ++ l') = (uncaught l ++ uncaught l')%list.
Proof.
  induction l as [|[r | m e | e] l IH]; simpl; rewrite ?IH; reflexivity.
Qed.

Lemma logged_app (l l' : list Event) :
  logged (l ++ l') = (logged l ++ logged l')%list.
Proof.
  induction l as [|[r | m e | e] l IH]; simpl; rewrite ?IH; reflexivity.
Qed.

Lemma active_filter_eq (snap : PageState) :
  nonempty (or_undefined (trim (codeFilter snap))) = active_filter snap.
Proof. apply nonempty_or_undefined. Qed.

(** The per-code request is the only request a resumed performance fetch
    sends. *)
Lemma PerformanceTask_requests (t : Task) (filter : option string) :
  PerformanceTask t filter ->
  forall o c,
    requests (trace (sync (resume t o) c))
    = (requests (trace c) ++ stock_followup filter (performance_outcome o))%list.
Proof.
  intros [_ H] o c. specialize (H o c).
  unfold stock_followup.
  destruct (performance_outcome o) as [overall|err].
  - destruct filter as [code|].
    + destruct H as (ts & _ & ->). simpl. apply requests_app.
    + rewrite H. simpl. symmetry. apply app_nil_r.
  - rewrite H. simpl. rewrite requests_app. simpl.
    destruct filter; reflexivity.
Qed.

Lemma ResultsTask_frame (t : Task) (page : Z) (filter : option string) :
  ResultsTask t page filter ->
  forall o c,
    let c' := sync (resume t o) c in
    pool c' = pool c
    /\ requests (trace c') = requests (trace c)
    /\ uncaught (trace c') = uncaught (trace c)
    /\ overallPerf (store c') = overallPerf (store c)
    /\ stockPerf (store c') = stockPerf (store c)
    /\ codeFilter (store c') = codeFilter (store c).
Proof.
  intros [_ H] o c. cbv zeta. rewrite H.
  destruct (results_outcome o); simpl;
    rewrite ?requests_app, ?uncaught_app, ?app_nil_r; repeat split.
Qed.

Lemma sync_fetches (snap : PageState) (page : Z) (c : Config) :
  exists tr tp,
    ResultsTask tr page (active_filter snap)
    /\ PerformanceTask tp (active_filter snap)
    /\ sync (BacktestPage.fetchPerformance
               (or_undefined (trim (codeFilter snap))))
            (sync (BacktestPage.fetchResults
                     (Some page) (or_undefined (trim (codeFilter snap)))) c)
       = {| store := setIsLoadingPerf true (setIsLoadingResults true (store c));
            pool := pool c ++ [tr; tp];
            trace := trace c
                     ++ [Sent (results_query page pageSize (active_filter snap));
                         Sent overall_query] |}.
Proof.
  destruct (fetchResults_sync (Some page)
              (or_undefined (trim (codeFilter snap))) c) as (tr & Htr & ->).
  destruct (fetchPerformance_sync (or_undefined (trim (codeFilter snap)))
              {| store := setIsLoadingResults true (store c);
                 pool := pool c ++ [tr];
                 trace := trace c
                          ++ [Sent (results_query page pageSize
                                      (nonempty (or_undefined
                                                   (trim (codeFilter snap)))))] |})
    as (tp & Htp & ->).
  rewrite active_filter_eq in *.
  exists tr, tp. split; [exact Htr|]. split; [exact Htp|].
  simpl. rewrite <- !app_assoc. reflexivity.
Qed.

(** The Enter key in the filter box submits the filter; no other key
    does anything. *)
Lemma handleKeyDown_enter (snap : PageState) (key : string) (c : Config) :
  sync (BacktestPage.handleKeyDown snap key) c
  = if (key =? "Enter")%string
    then sync (BacktestPage.handleFilter snap) c
    else c.
Proof.
  unfold BacktestPage.handleKeyDown.
  destruct (key =? "Enter")%string; reflexivity.
Qed.

(** On mount the page asks for the first page of results without a filter
    and for the overall metrics. *)
Example mount_requests :
  requests (trace (sync BacktestPage.initialLoad initialConfig))
  = [results_query 1 20 None; overall_query].
Proof. reflexivity. Qed.

(** A run of AAPL against a server that answers every request: the run
    request, then the result list and the overall metrics, then the
    metrics of AAPL. *)
Example run_requests :
  requests (trace (drain 4 (fun _ => respond (JObj []))
                     (sync (BacktestPage.handleRun
                              (setCodeFilter " AAPL " initialState))
                           initialConfig)))
  = [run_command [("code", JStr "AAPL")];
     results_query 1 20 (Some "AAPL");
     overall_query;
     stock_query "AAPL"].
Proof. reflexivity. Qed.

(* ================================================================= *)
(** ** The page: claims *)

(** C5. A page change to page [p] sends one request, for the result list
    at page [p] with the filter of the render, and suspends one call;
    resuming that call sends nothing and suspends nothing.  Neither step
    writes the performance metrics or the filter text. *)
Theorem page_change_fetches_only_results
  (snap : PageState) (p : Z) (c : Config) :
  exists t,
    sync (BacktestPage.handlePageChange snap p) c
    = {| store := setIsLoadingResults true (store c);
         pool := pool c ++ [t];
         trace := trace c ++ [Sent (results_query p 20 (active_filter snap))] |}
    /\ forall o c',
        let c'' := sync (resume t o) c' in
        pool c'' = pool c'
        /\ requests (trace c'') = requests (trace c')
        /\ overallPerf (store c'') = overallPerf (store c')
        /\ stockPerf (store c'') = stockPerf (store c')
        /\ codeFilter (store c'') = codeFilter (store c').
Proof.
  destruct (fetchResults_sync (Some p)
              (or_undefined (trim (codeFilter snap))) c) as (t & Ht & E).
  rewrite active_filter_eq in *.
  exists t. split.
  - exact E.
  - intros o c'. pose proof (ResultsTask_frame t _ _ Ht o c') as H.
    cbv zeta in *. tauto.
Qed.

Lemma run_body_filter (snap : PageState) :
  run_body {| BacktestRunRequest.code := or_undefined (trim (codeFilter snap));
              BacktestRunRequest.force := None;
              BacktestRunRequest.evalWindowDays := None;
              BacktestRunRequest.limit := None |}
  = match active_filter snap with
    | Some code => [("code", JStr code)]
    | None => []
    end.
Proof.
  unfold active_filter. destruct (trim (codeFilter snap)); reflexivity.
Qed.

(** C3. A run sends the run request with the filter of the render.  When
    that request succeeds, whatever the store has become meanwhile, the
    page stores the summary and sends two requests: the result list at
    page 1 and the overall metrics, both for the filter the render had
    when the run started; the metrics of that filter's code are requested
    once the overall metrics have arrived. *)
Theorem run_success_refetches (snap : PageState) (c : Config) :
  exists t,
    sync (BacktestPage.handleRun snap) c
    = {| store := setRunError JNull
                    (setRunResult JNull (setIsRunning true (store c)));
         pool := pool c ++ [t];
         trace := trace c
                  ++ [Sent (run_command
                              match active_filter snap with
                              | Some code => [("code", JStr code)]
                              | None => []
                              end)] |}
    /\ forall response c',
        exists tr tp,
          sync (resume t (Resolve response)) c'
          = {| store := setIsRunning false
                          (setIsLoadingPerf true
                             (setIsLoadingResults true
                                (setRunResult (toCamelCase (data response))
                                   (store c'))));
               pool := pool c' ++ [tr; tp];
               trace := trace c'
                        ++ [Sent (results_query 1 20 (active_filter snap));
                            Sent overall_query] |}
          /\ ResultsTask tr 1 (active_filter snap)
          /\ PerformanceTask tp (active_filter snap)
          /\ forall o c2,
              requests (trace (sync (resume tp o) c2))
              = (requests (trace c2)
                 ++ stock_followup (active_filter snap) (performance_outcome o))%list.
Proof.
  unfold BacktestPage.handleRun.
  rewrite run_request, run_body_filter.
  cbn -[answer backtestApi.run BacktestPage.fetchResults
        BacktestPage.fetchPerformance trim active_filter].
  eexists. split.
  - reflexivity.
  - intros response c'.
    cbn -[answer backtestApi.run BacktestPage.fetchResults
          BacktestPage.fetchPerformance trim].
    rewrite run_answer.
    cbn -[BacktestPage.fetchResults BacktestPage.fetchPerformance trim].
    destruct (sync_fetches snap 1
                {| store := setRunResult (toCamelCase (data response)) (store c');
                   pool := pool c'; trace := trace c' |})
      as (tr & tp & Htr & Htp & ->).
    exists tr, tp. split; [reflexivity|].
    split; [exact Htr|]. split; [exact Htp|].
    apply (PerformanceTask_requests tp _ Htp).
Qed.

(** C8, as stated, fails: with the code AAPL in the filter and an overall
    endpoint that answers 500, a filter submission never requests the
    metrics of AAPL. *)
Lemma filter_overall_down_skips_stock :
  active_filter (setCodeFilter "AAPL" initialState) = Some "AAPL"
  /\ pool (drain 3 overall_down
             (sync (BacktestPage.handleFilter (setCodeFilter "AAPL" initialState))
                   initialConfig)) = []
  /\ requests (trace (drain 3 overall_down
                        (sync (BacktestPage.handleFilter
                                 (setCodeFilter "AAPL" initialState))
                              initialConfig)))
     = [results_query 1 20 (Some "AAPL"); overall_query].
Proof. repeat split. Qed.

(** C8, amended. A filter submission sets the current page to 1 and sends
    two requests, the result list at page 1 with the submitted filter and
    the overall metrics.  When the overall metrics arrive, the metrics of
    one code are requested if and only if the filter holds a code and the
    overall fetch did not fail. *)
Theorem filter_resets_and_refetches (snap : PageState) (c : Config) :
  exists tr tp,
    sync (BacktestPage.handleFilter snap) c
    = {| store := setIsLoadingPerf true
                    (setIsLoadingResults true
                       (setCurrentPage (JNum 1) (store c)));
         pool := pool c ++ [tr; tp];
         trace := trace c
                  ++ [Sent (results_query 1 20 (active_filter snap));
                      Sent overall_query] |}
    /\ ResultsTask tr 1 (active_filter snap)
    /\ PerformanceTask tp (active_filter snap)
    /\ forall o c',
        requests (trace (sync (resume tp o) c'))
        = (requests (trace c')
           ++ stock_followup (active_filter snap) (performance_outcome o))%list.
Proof.
  destruct (sync_fetches snap 1
              {| store := setCurrentPage (JNum 1) (store c);
                 pool := pool c; trace := trace c |})
    as (tr & tp & Htr & Htp & E).
  exists tr, tp. split; [exact E|].
  split; [exact Htr|]. split; [exact Htp|].
  apply (PerformanceTask_requests tp _ Htp).
Qed.

(** C4, as stated, fails: a performance fetch for AAPL whose per-code
    request answers 500 is a fetch that fails (the failure is logged), yet
    it has replaced the overall metrics; only the per-code metrics keep
    their prior value. *)
Lemma performance_failure_overwrites_overall :
  logged (trace (drain 2 stock_down
                   (sync (BacktestPage.fetchPerformance (Some "AAPL"))
                         initialConfig)))
  = [("Failed to fetch performance:", server_error 500)]
  /\ overallPerf (store initialConfig) = JNull
  /\ overallPerf (store (drain 2 stock_down
                           (sync (BacktestPage.fetchPerformance (Some "AAPL"))
                                 initialConfig)))
     = JObj [("winRatePct", JNum 60)]
  /\ stockPerf (store (drain 2 stock_down
                         (sync (BacktestPage.fetchPerformance (Some "AAPL"))
                               initialConfig)))
     = stockPerf (store initialConfig).
Proof. repeat split. Qed.

(** C4, amended. A fetch suspends one call and never throws when it is
    resumed.  When the result-list call fails, the failure is logged and
    results, total count and current page keep their value.  When the
    overall-metrics call fails, the failure is logged and both metrics
    keep their value.  When it succeeds, the overall metrics are replaced
    and, with a code in the filter, a per-code call is suspended; when
    that call fails, the failure is logged and both metrics keep the value
    they had when it was resumed. *)
Theorem fetch_failure_keeps_state
  (page : option Z) (code : option string) (c : Config) :
  (exists t,
      pool (sync (BacktestPage.fetchResults page code) c) = (pool c ++ [t])%list
      /\ uncaught (trace (sync (BacktestPage.fetchResults page code) c))
         = uncaught (trace c)
      /\ forall o c',
          let c'' := sync (resume t o) c' in
          uncaught (trace c'') = uncaught (trace c')
          /\ pool c'' = pool c'
          /\ match results_outcome o with
             | Reject err =>
                 logged (trace c'')
                 = (logged (trace c')
                    ++ [("Failed to fetch backtest results:", err)])%list
                 /\ results (store c'') = results (store c')
                 /\ totalResults (store c'') = totalResults (store c')
                 /\ currentPage (store c'') = currentPage (store c')
             | Resolve _ => logged (trace c'') = logged (trace c')
             end)
  /\ (exists t,
         pool (sync (BacktestPage.fetchPerformance code) c) = (pool c ++ [t])%list
         /\ uncaught (trace (sync (BacktestPage.fetchPerformance code) c))
            = uncaught (trace c)
         /\ forall o c',
             let c'' := sync (resume t o) c' in
             uncaught (trace c'') = uncaught (trace c')
             /\ match performance_outcome o with
                | Reject err =>
                    logged (trace c'')
                    = (logged (trace c')
                       ++ [("Failed to fetch performance:", err)])%list
                    /\ pool c'' = pool c'
                    /\ overallPerf (store c'') = overallPerf (store c')
                    /\ stockPerf (store c'') = stockPerf (store c')
                | Resolve overall =>
                    logged (trace c'') = logged (trace c')
                    /\ overallPerf (store c'') = overall
                    /\ match nonempty code with
                       | None => pool c'' = pool c'
                       | Some _ =>
                           exists ts,
                             pool c'' = (pool c' ++ [ts])%list
                             /\ forall o2 c2,
                                 let c3 := sync (resume ts o2) c2 in
                                 uncaught (trace c3) = uncaught (trace c2)
                                 /\ pool c3 = pool c2
                                 /\ match performance_outcome o2 with
                                    | Reject err =>
                                        logged (trace c3)
                                        = (logged (trace c2)
                                           ++ [("Failed to fetch performance:",
                                                err)])%list
                                        /\ overallPerf (store c3)
                                           = overallPerf (store c2)
                                        /\ stockPerf (store c3)
                                           = stockPerf (store c2)
                                    | Resolve stock =>
                                        logged (trace c3) = logged (trace c2)
                                        /\ stockPerf (store c3) = stock
                                    end
                       end
                end).
Proof.
  split.
  - destruct (fetchResults_sync page code c) as (t & [_ Ht] & ->).
    exists t. simpl. rewrite uncaught_app, app_nil_r.
    repeat split.
    + rewrite Ht. destruct (results_outcome o); simpl;
        rewrite ?uncaught_app, ?app_nil_r; reflexivity.
    + rewrite Ht. destruct (results_outcome o); reflexivity.
    + rewrite Ht. destruct (results_outcome o); simpl;
        rewrite ?logged_app; repeat split.
  - destruct (fetchPerformance_sync code c) as (t & [_ Ht] & ->).
    exists t. simpl. rewrite uncaught_app, app_nil_r.
    repeat split.
    + specialize (Ht o c'). destruct (performance_outcome o).
      * destruct (nonempty code).
        -- destruct Ht as (ts & _ & ->). simpl.
           rewrite uncaught_app, app_nil_r. reflexivity.
        -- rewrite Ht. reflexivity.
      * rewrite Ht. simpl. rewrite uncaught_app, app_nil_r. reflexivity.
    + specialize (Ht o c'). destruct (performance_outcome o).
      * destruct (nonempty code).
        -- destruct Ht as (ts & [_ Hts] & E). rewrite E. simpl.
           rewrite logged_app, app_nil_r. repeat split.
           exists ts. split; [reflexivity|].
           intros o2 c2. simpl. rewrite Hts.
           destruct (performance_outcome o2); simpl;
             rewrite ?uncaught_app, ?logged_app, ?app_nil_r; repeat split.
        -- rewrite Ht. repeat split.
      * rewrite Ht. simpl. rewrite logged_app. repeat split.
Qed.

(* ================================================================= *)
(** ** The page never throws *)

Lemma quiet_tame (A : Type) (p : Prog A) : quiet A p -> tame A p.
Proof.
  induction p as [A a | A e | A r k IH | A f k IH | A m e k IH
                 | A child IHc k IH]; simpl; try tauto.
  intros H o. apply IH, H.
Qed.

Lemma tame_lift (A : Type) (p : Async A) : tame A (ProgOps.lift p).
Proof.
  induction p as [a | e | r k IH]; simpl; try exact I.
  intro o. apply IH.
Qed.

Lemma tame_bind (A : Type) (p : Prog A) :
  forall (B : Type) (f : A -> Prog B),
    tame A p -> (forall a, tame B (f a)) -> tame B (ProgOps.bind p f).
Proof.
  induction p as [A a | A e | A r k IH | A g k IH | A m e k IH
                 | A child IHc k IH]; intros B f Hp Hf; simpl in *.
  - apply Hf.
  - exact I.
  - intro o. apply IH; [apply Hp | exact Hf].
  - apply IH; assumption.
  - apply IH; assumption.
  - split; [apply Hp | apply IH; [apply Hp | exact Hf]].
Qed.

Lemma quiet_bind (A : Type) (p : Prog A) :
  forall (B : Type) (f : A -> Prog B),
    quiet A p -> (forall a, quiet B (f a)) -> quiet B (ProgOps.bind p f).
Proof.
  induction p as [A a | A e | A r k IH | A g k IH | A m e k IH
                 | A child IHc k IH]; intros B f Hp Hf; simpl in *.
  - apply Hf.
  - contradiction.
  - intro o. apply IH; [apply Hp | exact Hf].
  - apply IH; assumption.
  - apply IH; assumption.
  - split; [apply Hp | apply IH; [apply Hp | exact Hf]].
Qed.

Lemma quiet_try_catch (A : Type) (p : Prog A) :
  forall h : JsVal -> Prog A,
    tame A p -> (forall e, quiet A (h e)) -> quiet A (ProgOps.try_catch p h).
Proof.
  induction p as [A a | A e | A r k IH | A g k IH | A m e k IH
                 | A child IHc k IH]; intros h Hp Hh; simpl in *.
  - exact I.
  - apply Hh.
  - intro o. apply IH; [apply Hp | exact Hh].
  - apply IH; assumption.
  - apply IH; assumption.
  - split; [apply Hp | apply IH; [apply Hp | exact Hh]].
Qed.

Lemma quiet_finally (A : Type) (p : Prog A) :
  forall f : Prog unit,
    quiet A p -> quiet unit f -> quiet A (ProgOps.finally p f).
Proof.
  induction p as [A a | A e | A r k IH | A g k IH | A m e k IH
                 | A child IHc k IH]; intros f Hp Hf; simpl in *.
  - apply quiet_bind; [exact Hf | intros _; exact I].
  - contradiction.
  - intro o. apply IH; [apply Hp | exact Hf].
  - apply IH; assumption.
  - apply IH; assumption.
  - split; [apply Hp | apply IH; [apply Hp | exact Hf]].
Qed.

Lemma quiet_fetchResults (page : option Z) (code : option string) :
  quiet unit (BacktestPage.fetchResults page code).
Proof.
  unfold BacktestPage.fetchResults.
  apply quiet_bind; [exact I | intros _].
  apply quiet_finally; [|exact I].
  apply quiet_try_catch; [|intro e; exact I].
  apply tame_bind; [apply tame_lift | intro response].
  repeat (apply tame_bind; [first [apply tame_lift | exact I] | intro]).
  exact I.
Qed.

Lemma quiet_fetchPerformance (code : option string) :
  quiet unit (BacktestPage.fetchPerformance code).
Proof.
  unfold BacktestPage.fetchPerformance.
  apply quiet_bind; [exact I | intros _].
  apply quiet_finally; [|exact I].
  apply quiet_try_catch; [|intro e; exact I].
  apply tame_bind; [apply tame_lift | intro overall].
  apply tame_bind; [exact I | intros _].
  destruct (truthy (of_option JStr code)); [|exact I].
  destruct code as [c|]; [|exact I].
  apply tame_bind; [apply tame_lift | intro stock; exact I].
Qed.

Lemma quiet_handleRun (snap : PageState) :
  quiet unit (BacktestPage.handleRun snap).
Proof.
  unfold BacktestPage.handleRun.
  do 3 (apply quiet_bind; [exact I | intros _]).
  apply quiet_finally; [|exact I].
  apply quiet_try_catch; [|intro e; exact I].
  apply tame_bind; [apply tame_lift | intro response].
  apply tame_bind; [exact I | intros _].
  apply tame_bind; [|intros _].
  - split; [apply quiet_fetchResults | exact I].
  - split; [apply quiet_fetchPerformance | exact I].
Qed.

Lemma quiet_handleFilter (snap : PageState) :
  quiet unit (BacktestPage.handleFilter snap).
Proof.
  unfold BacktestPage.handleFilter.
  apply quiet_bind; [exact I | intros _].
  apply quiet_bind; [|intros _].
  - split; [apply quiet_fetchResults | exact I].
  - split; [apply quiet_fetchPerformance | exact I].
Qed.

Lemma quiet_handlePageChange (snap : PageState) (page : Z) :
  quiet unit (BacktestPage.handlePageChange snap page).
Proof. split; [apply quiet_fetchResults | exact I]. Qed.

Lemma quiet_initialLoad : quiet unit BacktestPage.initialLoad.
Proof.
  unfold BacktestPage.initialLoad.
  apply quiet_bind; [|intros _].
  - split; [apply quiet_fetchResults | exact I].
  - split; [apply quiet_fetchPerformance | exact I].
Qed.

Lemma sync_calm :
  forall p : Prog unit, quiet unit p -> forall c, calm c -> calm (sync p c).
Proof.
  fix IH 1.
  intros p Hp c [Hu Hq].
  destruct p as [a | e | r k | g k | m e k | child k]; simpl in *.
  - split; assumption.
  - contradiction.
  - split; simpl.
    + rewrite uncaught_app, Hu. reflexivity.
    + apply Forall_app. split; [exact Hq|].
      constructor; [exact Hp | constructor].
  - apply IH; [exact Hp | split; assumption].
  - apply IH; [exact Hp|]. split; simpl; [|exact Hq].
    rewrite uncaught_app, Hu. reflexivity.
  - destruct Hp as [Hchild Hk].
    apply IH; [exact Hk|]. apply IH; [exact Hchild | split; assumption].
Qed.

Lemma step_calm (c c' : Config) : step c c' -> calm c -> calm c'.
Proof.
  intros Hstep Hc.
  destruct Hstep as [c before after t o Hpool | c text | c | c | c page].
  - destruct Hc as [Hu Hq]. rewrite Hpool in Hq.
    apply Forall_app in Hq as [Hb Hq].
    apply Forall_cons_iff in Hq as [Ht Ha].
    apply sync_calm; [apply Ht|].
    split; simpl; [exact Hu | apply Forall_app; split; assumption].
  - exact Hc.
  - apply sync_calm; [apply quiet_handleFilter | exact Hc].
  - apply sync_calm; [apply quiet_handleRun | exact Hc].
  - apply sync_calm; [apply quiet_handlePageChange | exact Hc].
Qed.

(** X17. No behaviour of the page, whatever the server answers and
    whatever the user does, throws out of a handler or leaves a rejected
    promise unhandled. *)
Lemma page_never_throws (c : Config) : reachable c -> uncaught (trace c) = [].
Proof.
  intro H. enough (calm c) as [Hu _] by exact Hu.
  induction H as [| c c' Hstep _ IH].
  - apply sync_calm; [apply quiet_initialLoad|].
    split; [reflexivity | constructor].
  - exact (step_calm c c' Hstep IH).
Qed.

(* ================================================================= *)
(** ** More of the page: the run *)

Lemma handleRun_sync (snap : PageState) (c : Config) :
  exists t,
    RunTask t (active_filter snap)
    /\ sync (BacktestPage.handleRun snap) c
       = {| store := setRunError JNull
                       (setRunResult JNull (setIsRunning true (store c)));
            pool := pool c ++ [t];
            trace := trace c
                     ++ [Sent (run_command (filter_body (active_filter snap)))] |}.
Proof.
  unfold BacktestPage.handleRun.
  rewrite run_request, run_body_filter.
  cbn -[answer backtestApi.run BacktestPage.fetchResults
        BacktestPage.fetchPerformance trim active_filter].
  eexists. split; [|reflexivity]. split; [reflexivity|].
  intros o c'.
  cbn -[answer backtestApi.run BacktestPage.fetchResults
        BacktestPage.fetchPerformance trim active_filter run_outcome].
  rewrite run_answer.
  destruct (run_outcome o) as [response | err].
  - cbn -[BacktestPage.fetchResults BacktestPage.fetchPerformance trim
          active_filter].
    destruct (sync_fetches snap 1
                {| store := setRunResult response (store c');
                   pool := pool c'; trace := trace c' |})
      as (tr & tp & Htr & Htp & ->).
    exists tr, tp. split; [exact Htr|]. split; [exact Htp|]. reflexivity.
  - reflexivity.
Qed.

(* ================================================================= *)
(** ** More of the client *)

(** X1. [getResults] has no [catch]: when its request fails, with status
    404 as with anything else, the call rejects with the error of the
    transport and sends nothing more. *)
Theorem getResults_propagates_failure
  (transport : Request -> Outcome AxiosResponse)
  (params : ResultsParams.t) (err : JsVal) :
  transport (results_request params) = Reject err ->
  exec transport (backtestApi.getResults params)
  = (Reject err, [results_request params]).
Proof.
  intro Hfail. rewrite getResults_exec, Hfail. reflexivity.
Qed.

Lemma getResults_propagates_failure_witness :
  exec (fun _ => Reject (server_error 404))
       (backtestApi.getResults ResultsParams.empty)
  = (Reject (server_error 404), [results_query 1 20 None]).
Proof.
  apply (getResults_propagates_failure
           (fun _ => Reject (server_error 404)) ResultsParams.empty
           (server_error 404)).
  reflexivity.
Defined.

(** X2. Whatever the parameters, [getResults] sends one request whose
    query holds the page (1 when not given), the limit (20 when not
    given), the code when it is given and not empty, and no other
    parameter. *)
Theorem getResults_query
  (transport : Request -> Outcome AxiosResponse) (params : ResultsParams.t) :
  exists query,
    snd (exec transport (backtestApi.getResults params))
    = [Get "/api/v1/backtest/results" (JObj [("params", JObj query)])]
    /\ lookup "page" query
       = Some (JNum match ResultsParams.page params with
                    | Some p => p
                    | None => 1
                    end)
    /\ lookup "limit" query
       = Some (JNum match ResultsParams.limit params with
                    | Some l => l
                    | None => 20
                    end)
    /\ lookup "code" query
       = match ResultsParams.code params with
         | Some c => if (c =? "")%string then None else Some (JStr c)
         | None => None
         end
    /\ incl (List.map fst query) ["page"; "limit"; "code"].
Proof.
  rewrite getResults_exec.
  destruct params as [[[|a code]|] page limit]; cbn;
    eexists; (split; [reflexivity|]);
    repeat split; intros k Hk; simpl in *; tauto.
Qed.

Lemma encode_unit_segment (c : ascii) :
  forallb is_segment_char (list_ascii_of_string (encode_unit c)) = true.
Proof.
  destruct c as [[] [] [] [] [] [] [] []]; reflexivity.
Qed.

Lemma list_ascii_app (s t : string) :
  list_ascii_of_string (s ++ t)
  = (list_ascii_of_string s ++ list_ascii_of_string t)%list.
Proof.
  induction s as [|c s IH]; simpl; [reflexivity | rewrite IH; reflexivity].
Qed.

Lemma encodeURIComponent_segment (s : string) :
  forallb is_segment_char (list_ascii_of_string (encodeURIComponent s)) = true.
Proof.
  induction s as [|c s IH]; simpl; [reflexivity|].
  rewrite list_ascii_app, forallb_app, encode_unit_segment, IH. reflexivity.
Qed.

(** X3. The request of [getStockPerformance] goes to the performance path
    followed by one segment made of unreserved characters and percent
    escapes only: no code can add a path separator, a query or a
    fragment to the URL. *)
Theorem getStockPerformance_url
  (transport : Request -> Outcome AxiosResponse) (code : string) :
  exists segment,
    snd (exec transport (backtestApi.getStockPerformance code))
    = [Get ("/api/v1/backtest/performance/" ++ segment) JUndefined]
    /\ forallb is_segment_char (list_ascii_of_string segment) = true
    /\ ~ In "/"%char (list_ascii_of_string segment)
    /\ ~ In "?"%char (list_ascii_of_string segment)
    /\ ~ In "#"%char (list_ascii_of_string segment).
Proof.
  exists (encodeURIComponent code).
  pose proof (encodeURIComponent_segment code) as H.
  split.
  - change (backtestApi.getStockPerformance code)
      with (performance_call (Stock code)).
    rewrite performance_exec. reflexivity.
  - split; [exact H|].
    rewrite forallb_forall in H.
    repeat split; intro Hin; apply H in Hin; discriminate.
Qed.

Lemma encodeURIComponent_plain (s : string) :
  forallb is_unreserved (list_ascii_of_string s) = true ->
  encodeURIComponent s = s.
Proof.
  induction s as [|c s IH]; simpl; [reflexivity|].
  intro H. apply andb_true_iff in H as [Hc Hs].
  unfold encode_unit. rewrite Hc. simpl. rewrite (IH Hs). reflexivity.
Qed.

(** X4. A code written with letters, digits and the marks [-_.!~*'()]
    only is requested under its own name. *)
Theorem getStockPerformance_plain_code
  (transport : Request -> Outcome AxiosResponse) (code : string) :
  forallb is_unreserved (list_ascii_of_string code) = true ->
  snd (exec transport (backtestApi.getStockPerformance code))
  = [Get ("/api/v1/backtest/performance/" ++ code) JUndefined].
Proof.
  intro H.
  change (backtestApi.getStockPerformance code)
    with (performance_call (Stock code)).
  rewrite performance_exec. simpl.
  unfold stock_query. rewrite (encodeURIComponent_plain code H).
  reflexivity.
Qed.

Lemma getStockPerformance_plain_code_witness :
  snd (exec (fun _ => respond JNull) (backtestApi.getStockPerformance "600519.SH"))
  = [Get "/api/v1/backtest/performance/600519.SH" JUndefined].
Proof.
  apply (getStockPerformance_plain_code (fun _ => respond JNull) "600519.SH").
  reflexivity.
Defined.

(* ================================================================= *)
(** ** More of the page: one run, one fetch *)

(** X5. A run that fails stores the message of the error, or the text
    "Backtest failed" when what was thrown is not an [Error], and ends the
    run.  It sends no request, starts no fetch and logs nothing; the other
    cells of the store keep the value they have at that moment. *)
Theorem run_failure_shows_message (snap : PageState) (c : Config) :
  exists t,
    pool (sync (BacktestPage.handleRun snap) c) = (pool c ++ [t])%list
    /\ forall err c',
        sync (resume t (Reject err)) c'
        = {| store := setIsRunning false
                        (setRunError
                           (if instanceof_Error err
                            then member err "message"
                            else JStr "Backtest failed")
                           (store c'));
             pool := pool c';
             trace := trace c' |}.
Proof.
  destruct (handleRun_sync snap c) as (t & [_ Ht] & ->).
  exists t. split; [reflexivity|].
  intros err c'. exact (Ht (Reject err) c').
Qed.

(** X6. A run leads to at most four requests: once they have settled,
    however they settle, nothing is pending any more.  The page does not
    poll and does not retry. *)
Theorem run_settles_within_four
  (snap : PageState) (transport : Request -> Outcome AxiosResponse)
  (c : Config) :
  pool c = [] ->
  pool (drain 4 transport (sync (BacktestPage.handleRun snap) c)) = []
  /\ (List.length
        (requests (trace (drain 4 transport
                            (sync (BacktestPage.handleRun snap) c))))
      <= List.length (requests (trace c)) + 4)%nat.
Proof.
  intro Hpool.
  destruct (handleRun_sync snap c) as (t & [_ Ht] & ->).
  rewrite Hpool. cbn [drain pool store trace app].
  specialize (Ht (transport (awaiting t))
                 {| store := setRunError JNull
                               (setRunResult JNull (setIsRunning true (store c)));
                    pool := [];
                    trace := trace c
                             ++ [Sent (run_command
                                         (filter_body (active_filter snap)))] |}).
  destruct (run_outcome (transport (awaiting t))) as [response | err].
  - destruct Ht as (tr & tp & [_ Htr] & [_ Htp] & ->).
    cbn [drain pool store trace app].
    rewrite Htr.
    assert (Hres : forall out c0,
               pool (results_arrived out c0) = pool c0
               /\ requests (trace (results_arrived out c0))
                  = requests (trace c0)).
    { intros [v|e] c0; simpl; rewrite ?requests_app, ?app_nil_r; split;
        reflexivity. }
    destruct (Hres (results_outcome (transport (awaiting tr)))
                {| store := setIsRunning false
                              (setIsLoadingPerf true
                                 (setIsLoadingResults true
                                    (setRunResult response
                                       (setRunError JNull
                                          (setRunResult JNull
                                             (setIsRunning true (store c)))))));
                   pool := [tp];
                   trace := (trace c
                             ++ [Sent (run_command
                                         (filter_body (active_filter snap)))])
                            ++ [Sent (results_query 1 pageSize
                                        (active_filter snap));
                                Sent overall_query] |}) as [Hp Hr].
    simpl in Hp, Hr.
    destruct (results_arrived _ _) as [s1 p1 tr1]. simpl in Hp, Hr. subst p1.
    cbn [drain pool store trace].
    specialize (Htp (transport (awaiting tp))
                    {| store := s1; pool := []; trace := tr1 |}).
    destruct (performance_outcome (transport (awaiting tp))) as [overall|e].
    + destruct (active_filter snap) as [code|].
      * destruct Htp as (ts & [_ Hts] & ->).
        cbn [drain pool store trace app].
        rewrite Hts.
        destruct (performance_outcome (transport (awaiting ts))); simpl;
          rewrite ?requests_app, Hr, ?requests_app; simpl;
          rewrite ?length_app; simpl; split; try reflexivity; lia.
      * rewrite Htp. simpl. rewrite Hr, !requests_app. simpl.
        rewrite !length_app. simpl. split; [reflexivity | lia].
    + rewrite Htp. simpl. rewrite requests_app, Hr, !requests_app. simpl.
      rewrite !length_app. simpl. split; [reflexivity | lia].
  - rewrite Ht. simpl. rewrite requests_app, length_app. simpl.
    split; [reflexivity | lia].
Qed.

Lemma run_settles_within_four_witness :
  pool (drain 4 overall_down
          (sync (BacktestPage.handleRun (setCodeFilter "AAPL" initialState))
                initialConfig)) = []
  /\ (List.length
        (requests (trace (drain 4 overall_down
                            (sync (BacktestPage.handleRun
                                     (setCodeFilter "AAPL" initialState))
                                  initialConfig))))
      <= List.length (requests (trace initialConfig)) + 4)%nat.
Proof.
  apply (run_settles_within_four (setCodeFilter "AAPL" initialState)
           overall_down initialConfig).
  reflexivity.
Defined.

Lemma two_fetches (p1 p2 : option Z) (f1 f2 : option string) (c : Config) :
  exists t1 t2,
    ResultsTask t1 (match p1 with Some p => p | None => 1 end) (nonempty f1)
    /\ ResultsTask t2 (match p2 with Some p => p | None => 1 end) (nonempty f2)
    /\ sync (BacktestPage.fetchResults p2 f2)
            (sync (BacktestPage.fetchResults p1 f1) c)
       = {| store := setIsLoadingResults true
                       (setIsLoadingResults true (store c));
            pool := pool c ++ [t1; t2];
            trace := trace c
                     ++ [Sent (results_query
                                 (match p1 with Some p => p | None => 1 end)
                                 pageSize (nonempty f1));
                         Sent (results_query
                                 (match p2 with Some p => p | None => 1 end)
                                 pageSize (nonempty f2))] |}.
Proof.
  destruct (fetchResults_sync p1 f1 c) as (t1 & H1 & ->).
  destruct (fetchResults_sync p2 f2
              {| store := setIsLoadingResults true (store c);
                 pool := pool c ++ [t1];
                 trace := trace c
                          ++ [Sent (results_query
                                      (match p1 with Some p => p | None => 1 end)
                                      pageSize (nonempty f1))] |})
    as (t2 & H2 & ->).
  exists t1, t2. split; [exact H1|]. split; [exact H2|].
  simpl. rewrite <- !app_assoc. reflexivity.
Qed.

(** X7. Two result fetches may be pending together, and nothing ties an
    answer to the latest of them.  When the later request settles first
    and the earlier one after it, the rows, the total and the page that
    stay on the screen are those of the earlier request. *)
Theorem stale_results_overwrite
  (p1 p2 : option Z) (f1 f2 : option string) (c : Config) :
  exists t1 t2,
    pool (sync (BacktestPage.fetchResults p2 f2)
               (sync (BacktestPage.fetchResults p1 f1) c))
    = (pool c ++ [t1; t2])%list
    /\ awaiting t1
       = results_query (match p1 with Some p => p | None => 1 end) 20
                       (nonempty f1)
    /\ awaiting t2
       = results_query (match p2 with Some p => p | None => 1 end) 20
                       (nonempty f2)
    /\ forall o1 o2 c',
        match results_outcome o1 with
        | Resolve response =>
            let final := sync (resume t1 o1) (sync (resume t2 o2) c') in
            results (store final) = member response "items"
            /\ totalResults (store final) = member response "total"
            /\ currentPage (store final) = member response "page"
        | Reject _ =>
            store (sync (resume t1 o1) (sync (resume t2 o2) c'))
            = store (sync (resume t2 o2) c')
        end.
Proof.
  destruct (two_fetches p1 p2 f1 f2 c) as (t1 & t2 & [A1 H1] & [A2 H2] & ->).
  exists t1, t2. split; [reflexivity|]. split; [exact A1|]. split; [exact A2|].
  intros o1 o2 c'. rewrite H1, H2.
  destruct (results_outcome o1) as [v|e]; [repeat split|].
  destruct (results_outcome o2); reflexivity.
Qed.

(** X8. The loading flag of the results is one boolean, not a count: it
    is raised by every fetch and lowered by the first fetch that settles,
    however it settles, while the other fetch is still pending. *)
Theorem loading_flag_cleared_by_first_settled
  (p1 p2 : option Z) (f1 f2 : option string) (c : Config) :
  exists t1 t2,
    pool (sync (BacktestPage.fetchResults p2 f2)
               (sync (BacktestPage.fetchResults p1 f1) c))
    = (pool c ++ [t1; t2])%list
    /\ isLoadingResults
         (store (sync (BacktestPage.fetchResults p2 f2)
                      (sync (BacktestPage.fetchResults p1 f1) c))) = true
    /\ forall o s l,
        isLoadingResults
          (store (sync (resume t1 o)
                       {| store := s; pool := pool c ++ [t2]; trace := l |}))
        = false
        /\ pool (sync (resume t1 o)
                      {| store := s; pool := pool c ++ [t2]; trace := l |})
           = (pool c ++ [t2])%list.
Proof.
  destruct (two_fetches p1 p2 f1 f2 c) as (t1 & t2 & [A1 H1] & [A2 H2] & ->).
  exists t1, t2. split; [reflexivity|]. split; [reflexivity|].
  intros o s l. rewrite H1.
  destruct (results_outcome o); split; reflexivity.
Qed.

(** X9. With a code in the filter, the loading flag of the performance
    panel covers both requests: it is raised when the fetch starts, still
    raised when the overall metrics have been stored, and lowered when the
    per-code request settles.  When the overall request fails it is
    lowered at once. *)
Theorem performance_loading_spans_both_requests
  (a : ascii) (code : string) (c : Config) :
  exists t,
    sync (BacktestPage.fetchPerformance (Some (String a code))) c
    = {| store := setIsLoadingPerf true (store c);
         pool := pool c ++ [t];
         trace := trace c ++ [Sent overall_query] |}
    /\ forall o s l,
        match performance_outcome o with
        | Resolve overall =>
            exists ts,
              sync (resume t o) {| store := s; pool := pool c; trace := l |}
              = {| store := setOverallPerf overall s;
                   pool := pool c ++ [ts];
                   trace := l ++ [Sent (stock_query (String a code))] |}
              /\ forall o2 s2 l2,
                  isLoadingPerf
                    (store (sync (resume ts o2)
                                 {| store := s2; pool := pool c; trace := l2 |}))
                  = false
        | Reject _ =>
            isLoadingPerf
              (store (sync (resume t o)
                           {| store := s; pool := pool c; trace := l |}))
            = false
        end.
Proof.
  destruct (fetchPerformance_sync (Some (String a code)) c)
    as (t & [_ Ht] & ->).
  exists t. split; [reflexivity|].
  intros o s l.
  specialize (Ht o {| store := s; pool := pool c; trace := l |}).
  destruct (performance_outcome o) as [overall | err].
  - simpl in Ht. destruct Ht as (ts & [_ Hts] & ->).
    exists ts. split; [reflexivity|].
    intros o2 s2 l2. rewrite Hts.
    destruct (performance_outcome o2); reflexivity.
  - rewrite Ht. reflexivity.
Qed.

(** X10. A filter submission sets the current page to 1 before anything
    is fetched.  When the fetch of the result list then fails, the page
    number stays 1 while the rows and the total are still those shown
    before the submission. *)
Theorem filter_failure_keeps_rows_resets_page (snap : PageState) (c : Config) :
  exists tr tp,
    pool (sync (BacktestPage.handleFilter snap) c) = (pool c ++ [tr; tp])%list
    /\ forall o,
        match results_outcome o with
        | Reject _ =>
            let c1 := sync (BacktestPage.handleFilter snap) c in
            let final :=
              sync (resume tr o)
                   {| store := store c1; pool := pool c ++ [tp];
                      trace := trace c1 |} in
            currentPage (store final) = JNum 1
            /\ results (store final) = results (store c)
            /\ totalResults (store final) = totalResults (store c)
        | Resolve _ => True
        end.
Proof.
  destruct (sync_fetches snap 1
              {| store := setCurrentPage (JNum 1) (store c);
                 pool := pool c; trace := trace c |})
    as (tr & tp & [_ Htr] & _ & E).
  exists tr, tp.
  change (sync (BacktestPage.handleFilter snap) c)
    with (sync (BacktestPage.fetchPerformance
                  (or_undefined (trim (codeFilter snap))))
               (sync (BacktestPage.fetchResults
                        (Some 1) (or_undefined (trim (codeFilter snap))))
                     {| store := setCurrentPage (JNum 1) (store c);
                        pool := pool c; trace := trace c |})).
  rewrite E. split; [reflexivity|].
  intro o.
  destruct (results_outcome o) as [v|e] eqn:Eo; [exact I|].
  cbv zeta. rewrite Htr, Eo. repeat split.
Qed.

(** X11. On mount the page asks for page 1 of the results without a code
    and for the overall metrics.  The performance fetch of the mount sends
    no further request: on success it stores the overall metrics and
    clears the per-code metrics. *)
Theorem initial_load_overall_only (c : Config) :
  exists tr tp,
    sync BacktestPage.initialLoad c
    = {| store := setIsLoadingPerf true (setIsLoadingResults true (store c));
         pool := pool c ++ [tr; tp];
         trace := trace c ++ [Sent (results_query 1 20 None);
                              Sent overall_query] |}
    /\ forall o c',
        pool (sync (resume tp o) c') = pool c'
        /\ requests (trace (sync (resume tp o) c')) = requests (trace c')
        /\ match performance_outcome o with
           | Resolve overall =>
               overallPerf (store (sync (resume tp o) c')) = overall
               /\ stockPerf (store (sync (resume tp o) c')) = JNull
           | Reject _ =>
               overallPerf (store (sync (resume tp o) c'))
               = overallPerf (store c')
               /\ stockPerf (store (sync (resume tp o) c'))
                  = stockPerf (store c')
           end.
Proof.
  destruct (fetchResults_sync (Some 1) None c) as (tr & _ & Er).
  destruct (fetchPerformance_sync None (sync (BacktestPage.fetchResults (Some 1) None) c))
    as (tp & [_ Htp] & Ep).
  exists tr, tp. split.
  - change (sync BacktestPage.initialLoad c)
      with (sync (BacktestPage.fetchPerformance None)
                 (sync (BacktestPage.fetchResults (Some 1) None) c)).
    rewrite Ep, Er. simpl. rewrite <- !app_assoc. reflexivity.
  - intros o c'. specialize (Htp o c'). simpl in Htp.
    destruct (performance_outcome o); rewrite Htp; simpl;
      rewrite ?requests_app, ?app_nil_r; repeat split.
Qed.

(* ================================================================= *)
(** ** More of the page: what every behaviour keeps *)

Lemma results_outcome_items (o : Outcome AxiosResponse) (v : JsVal) :
  results_outcome o = Resolve v -> is_array (member v "items").
Proof.
  destruct o as [[d] | e]; simpl; [|discriminate].
  destruct (nullish (toCamelCase d)); [discriminate|].
  destruct (js_or _ _); try discriminate.
  intros [= <-]. eexists. reflexivity.
Qed.

Lemma FetchTask_request (t : Task) :
  FetchTask t ->
  page_request (awaiting t) /\ is_run_request (awaiting t) = false.
Proof.
  intros [(p & f & [A _]) | [(f & [A _]) | (code & [A _])]]; rewrite A;
    (split; [|reflexivity]); unfold page_request.
  - right. left. exists p, f. reflexivity.
  - right. right. left. reflexivity.
  - right. right. right. exists code. reflexivity.
Qed.

Lemma KnownTask_request (t : Task) : KnownTask t -> page_request (awaiting t).
Proof.
  intros [(f & [A _]) | H].
  - rewrite A. left. exists f. reflexivity.
  - apply FetchTask_request, H.
Qed.

Lemma FetchEffect_refl (c : Config) : FetchEffect c c.
Proof.
  repeat split; try tauto.
  exists []. rewrite !app_nil_r. repeat split. constructor.
Qed.

Lemma FetchEffect_trans (c1 c2 c3 : Config) :
  FetchEffect c1 c2 -> FetchEffect c2 c3 -> FetchEffect c1 c3.
Proof.
  intros (A1 & B1 & C1 & D1 & E1 & n1 & P1 & F1 & R1)
         (A2 & B2 & C2 & D2 & E2 & n2 & P2 & F2 & R2).
  repeat split; try congruence; try tauto.
  exists (n1 ++ n2)%list. repeat split.
  - rewrite P2, P1, app_assoc. reflexivity.
  - apply Forall_app. split; assumption.
  - rewrite R2, R1, List.map_app, app_assoc. reflexivity.
Qed.

(** A step that touches neither the run cells, the filter text, the rows,
    the pool nor the requests. *)
Lemma FetchEffect_frame (c c' : Config) :
  isRunning (store c') = isRunning (store c) ->
  runResult (store c') = runResult (store c) ->
  runError (store c') = runError (store c) ->
  codeFilter (store c') = codeFilter (store c) ->
  (is_array (results (store c)) -> is_array (results (store c'))) ->
  pool c' = pool c ->
  requests (trace c') = requests (trace c) ->
  FetchEffect c c'.
Proof.
  intros A B C D E P R. repeat split; try assumption.
  exists []. rewrite !app_nil_r. repeat split; [assumption | constructor | assumption].
Qed.

Lemma FetchEffect_spawn (c c' : Config) (t : Task) :
  isRunning (store c') = isRunning (store c) ->
  runResult (store c') = runResult (store c) ->
  runError (store c') = runError (store c) ->
  codeFilter (store c') = codeFilter (store c) ->
  results (store c') = results (store c) ->
  pool c' = (pool c ++ [t])%list ->
  trace c' = (trace c ++ [Sent (awaiting t)])%list ->
  FetchTask t ->
  FetchEffect c c'.
Proof.
  intros A B C D E P R F. repeat split; try assumption.
  - rewrite E. tauto.
  - exists [t]. repeat split; [assumption | constructor; [assumption | constructor] |].
    rewrite R, requests_app. reflexivity.
Qed.

Lemma fetchResults_effect (page : option Z) (code : option string) (c : Config) :
  FetchEffect c (sync (BacktestPage.fetchResults page code) c).
Proof.
  destruct (fetchResults_sync page code c) as (t & Ht & ->).
  apply (FetchEffect_spawn _ _ t); try reflexivity.
  - simpl. destruct Ht as [-> _]. reflexivity.
  - left. eexists _, _. exact Ht.
Qed.

Lemma fetchPerformance_effect (code : option string) (c : Config) :
  FetchEffect c (sync (BacktestPage.fetchPerformance code) c).
Proof.
  destruct (fetchPerformance_sync code c) as (t & Ht & ->).
  apply (FetchEffect_spawn _ _ t); try reflexivity.
  - simpl. destruct Ht as [-> _]. reflexivity.
  - right. left. eexists. exact Ht.
Qed.

Lemma FetchTask_effect (t : Task) (o : Outcome AxiosResponse) (c : Config) :
  FetchTask t -> FetchEffect c (sync (resume t o) c).
Proof.
  intros [(p & f & [_ H]) | [(f & [_ H]) | (code & [_ H])]].
  - rewrite H. destruct (results_outcome o) as [v|e] eqn:E.
    + apply FetchEffect_frame; try reflexivity.
      intros _. exact (results_outcome_items o v E).
    + apply FetchEffect_frame; try reflexivity; [tauto|].
      simpl. rewrite requests_app. apply app_nil_r.
  - specialize (H o c). destruct (performance_outcome o) as [v|e].
    + destruct f as [code|].
      * destruct H as (ts & Hts & ->).
        apply (FetchEffect_spawn _ _ ts); try reflexivity.
        -- simpl. destruct Hts as [-> _]. reflexivity.
        -- right. right. exists code. exact Hts.
      * rewrite H. apply FetchEffect_frame; try reflexivity. tauto.
    + rewrite H. apply FetchEffect_frame; try reflexivity; [tauto|].
      simpl. rewrite requests_app. apply app_nil_r.
  - rewrite H. destruct (performance_outcome o) as [v|e].
    + apply FetchEffect_frame; try reflexivity. tauto.
    + apply FetchEffect_frame; try reflexivity; [tauto|].
      simpl. rewrite requests_app. apply app_nil_r.
Qed.

Lemma handlePageChange_effect (snap : PageState) (page : Z) (c : Config) :
  FetchEffect c (sync (BacktestPage.handlePageChange snap page) c).
Proof. apply fetchResults_effect. Qed.

Lemma handleFilter_effect (snap : PageState) (c : Config) :
  FetchEffect c (sync (BacktestPage.handleFilter snap) c).
Proof.
  change (sync (BacktestPage.handleFilter snap) c)
    with (sync (BacktestPage.fetchPerformance
                  (or_undefined (trim (codeFilter snap))))
               (sync (BacktestPage.fetchResults
                        (Some 1) (or_undefined (trim (codeFilter snap))))
                     {| store := setCurrentPage (JNum 1) (store c);
                        pool := pool c; trace := trace c |})).
  eapply FetchEffect_trans; [|apply fetchPerformance_effect].
  eapply FetchEffect_trans; [|apply fetchResults_effect].
  apply FetchEffect_frame; try reflexivity. tauto.
Qed.

Lemma handleKeyDown_effect (snap : PageState) (key : string) (c : Config) :
  FetchEffect c (sync (BacktestPage.handleKeyDown snap key) c).
Proof.
  rewrite handleKeyDown_enter.
  destruct (key =? "Enter")%string;
    [apply handleFilter_effect | apply FetchEffect_refl].
Qed.

Lemma initialLoad_effect (c : Config) :
  FetchEffect c (sync BacktestPage.initialLoad c).
Proof.
  change (sync BacktestPage.initialLoad c)
    with (sync (BacktestPage.fetchPerformance None)
               (sync (BacktestPage.fetchResults (Some 1) None) c)).
  eapply FetchEffect_trans;
    [apply fetchResults_effect | apply fetchPerformance_effect].
Qed.

(** What the end of a run does to the page. *)
Lemma RunTask_effect (t : Task) (filter : option string)
  (o : Outcome AxiosResponse) (c : Config) :
  RunTask t filter ->
  let c' := sync (resume t o) c in
  isRunning (store c') = false
  /\ (runResult (store c') = runResult (store c)
      \/ runError (store c') = runError (store c))
  /\ codeFilter (store c') = codeFilter (store c)
  /\ results (store c') = results (store c)
  /\ exists new,
      pool c' = (pool c ++ new)%list
      /\ Forall FetchTask new
      /\ requests (trace c')
         = (requests (trace c) ++ List.map awaiting new)%list.
Proof.
  intros [_ H]. cbv zeta. specialize (H o c).
  destruct (run_outcome o) as [response | err].
  - destruct H as (tr & tp & Htr & Htp & ->). simpl.
    repeat split; [right; reflexivity|].
    exists [tr; tp]. repeat split.
    + constructor; [|constructor; [|constructor]].
      * left. eexists _, _. exact Htr.
      * right. left. eexists. exact Htp.
    + rewrite requests_app. simpl.
      destruct Htr as [-> _]. destruct Htp as [-> _]. reflexivity.
  - rewrite H. simpl. repeat split; [left; reflexivity|].
    exists []. rewrite !app_nil_r. repeat split. constructor.
Qed.

Lemma Forall_remove {A : Type} (P : A -> Prop) (before after : list A) (x : A) :
  Forall P (before ++ x :: after) -> P x /\ Forall P (before ++ after).
Proof.
  intro H. apply Forall_app in H as [Hb H].
  apply Forall_cons_iff in H as [Hx Ha].
  split; [exact Hx | apply Forall_app; split; assumption].
Qed.

Lemma FetchEffect_PageInv (c c' : Config) :
  FetchEffect c c' -> PageInv c -> PageInv c'.
Proof.
  intros (_ & _ & _ & _ & E & new & P & F & R) (Hk & Ha & Hr).
  split; [|split].
  - rewrite P. apply Forall_app. split; [exact Hk|].
    eapply Forall_impl; [|exact F]. intros t Ht. right. exact Ht.
  - apply E, Ha.
  - rewrite R. apply Forall_app. split; [exact Hr|].
    apply Forall_map. eapply Forall_impl; [|exact F].
    intros t Ht. apply FetchTask_request, Ht.
Qed.

Lemma step_PageInv (c c' : Config) : step c c' -> PageInv c -> PageInv c'.
Proof.
  intros Hstep Hinv.
  destruct Hstep as [c before after t o Hpool | c text | c | c | c page].
  - destruct Hinv as (Hk & Ha & Hr). rewrite Hpool in Hk.
    apply Forall_remove in Hk as [Ht Hk].
    assert (H0 : PageInv {| store := store c; pool := before ++ after;
                            trace := trace c |}).
    { split; [exact Hk | split; assumption]. }
    destruct Ht as [(f & Ht) | Ht].
    + destruct (RunTask_effect t f o
                  {| store := store c; pool := before ++ after;
                     trace := trace c |} Ht)
        as (_ & _ & _ & E & new & P & F & R).
      split; [|split].
      * rewrite P. apply Forall_app. split; [exact Hk|].
        eapply Forall_impl; [|exact F]. intros t' Ht'. right. exact Ht'.
      * rewrite E. exact Ha.
      * rewrite R. apply Forall_app. split; [exact Hr|].
        apply Forall_map. eapply Forall_impl; [|exact F].
        intros t' Ht'. apply FetchTask_request, Ht'.
    + exact (FetchEffect_PageInv _ _ (FetchTask_effect t o _ Ht) H0).
  - exact Hinv.
  - exact (FetchEffect_PageInv _ _ (handleFilter_effect _ c) Hinv).
  - destruct (handleRun_sync (store c) c) as (t & Ht & ->).
    destruct Hinv as (Hk & Ha & Hr).
    split; [|split]; simpl.
    + apply Forall_app. split; [exact Hk|].
      constructor; [|constructor]. left. eexists. exact Ht.
    + exact Ha.
    + rewrite requests_app. apply Forall_app. split; [exact Hr|].
      constructor; [|constructor]. left. eexists. reflexivity.
  - exact (FetchEffect_PageInv _ _ (handlePageChange_effect _ page c) Hinv).
Qed.

Lemma reachable_PageInv (c : Config) : reachable c -> PageInv c.
Proof.
  induction 1 as [| c c' Hstep _ IH].
  - apply (FetchEffect_PageInv initialConfig).
    + apply initialLoad_effect.
    + split; [constructor | split; [exists []; reflexivity | constructor]].
  - exact (step_PageInv c c' Hstep IH).
Qed.

Lemma reachable_mounted : reachable mounted.
Proof. constructor. Qed.

Lemma reachable_step (c c' : Config) : reachable c -> step c c' -> reachable c'.
Proof. intros H Hs. econstructor 2; [exact Hs | exact H]. Qed.

Lemma ui_reachable_mounted : ui_reachable mounted.
Proof. constructor. Qed.

Lemma ui_reachable_step (c c' : Config) :
  ui_reachable c -> ui_step c c' -> ui_reachable c'.
Proof. intros H Hs. econstructor 2; [exact Hs | exact H]. Qed.

(** X12. In every state the page can reach, whatever the server has
    answered, [results] is an array: the view can take its [length] and
    [map] over it. *)
Theorem results_always_array (c : Config) :
  reachable c -> is_array (results (store c)).
Proof. intro H. apply reachable_PageInv in H. apply H. Qed.

Lemma results_always_array_witness :
  is_array (results (store (sync (BacktestPage.handleFilter (store mounted))
                                 mounted))).
Proof.
  apply (results_always_array
           (sync (BacktestPage.handleFilter (store mounted)) mounted)).
  apply (reachable_step mounted); [apply reachable_mounted | apply step_filter].
Defined.

(** X13. The page sends four kinds of request and no other: a run whose
    body holds at most the code of the filter (never [force],
    [eval_window_days] or [limit]), a result page of 20 rows, the overall
    metrics, the metrics of one code. *)
Theorem only_page_requests (c : Config) :
  reachable c -> Forall page_request (requests (trace c)).
Proof. intro H. apply reachable_PageInv in H. apply H. Qed.

Lemma only_page_requests_witness :
  Forall page_request
         (requests (trace (sync (BacktestPage.handleRun (store mounted))
                                mounted))).
Proof.
  apply (only_page_requests
           (sync (BacktestPage.handleRun (store mounted)) mounted)).
  apply (reachable_step mounted); [apply reachable_mounted | apply step_run].
Defined.

(** X14. Only the user changes the text of the filter box: a step of the
    page that is not an edit, be it a handler or an answer of the server,
    leaves [codeFilter] as it is. *)
Theorem filter_text_only_edited (c c' : Config) :
  reachable c -> step c c' ->
  codeFilter (store c') = codeFilter (store c)
  \/ exists text,
      c' = {| store := setCodeFilter text (store c); pool := pool c;
              trace := trace c |}.
Proof.
  intros Hreach Hstep. apply reachable_PageInv in Hreach.
  destruct Hreach as (Hk & _ & _).
  destruct Hstep as [c before after t o Hpool | c text | c | c | c page].
  - left. rewrite Hpool in Hk. apply Forall_remove in Hk as [Ht _].
    destruct Ht as [(f & Ht) | Ht].
    + destruct (RunTask_effect t f o
                  {| store := store c; pool := before ++ after;
                     trace := trace c |} Ht) as (_ & _ & E & _).
      exact E.
    + destruct (FetchTask_effect t o
                  {| store := store c; pool := before ++ after;
                     trace := trace c |} Ht) as (_ & _ & _ & E & _).
      exact E.
  - right. exists text. reflexivity.
  - left. apply (handleFilter_effect (store c) c).
  - left. destruct (handleRun_sync (store c) c) as (t & _ & ->). reflexivity.
  - left. apply (handlePageChange_effect (store c) page c).
Qed.

Lemma filter_text_only_edited_witness :
  codeFilter (store (sync (BacktestPage.handleRun (store mounted)) mounted))
  = codeFilter (store mounted)
  \/ exists text,
      sync (BacktestPage.handleRun (store mounted)) mounted
      = {| store := setCodeFilter text (store mounted); pool := pool mounted;
           trace := trace mounted |}.
Proof.
  apply (filter_text_only_edited mounted
           (sync (BacktestPage.handleRun (store mounted)) mounted)).
  - apply reachable_mounted.
  - apply step_run.
Defined.

(** The behaviours the view allows are behaviours of the page. *)
Lemma ui_step_step (c c' : Config) : ui_step c c' -> step c c' \/ c' = c.
Proof.
  intros [c0 before after t o Hpool | c0 text _ | c0 key _ | c0 _ | c0 _
         | c0 page].
  - left. apply step_settle. exact Hpool.
  - left. apply step_edit.
  - rewrite handleKeyDown_enter.
    destruct (key =? "Enter")%string; [left; apply step_filter | right; reflexivity].
  - left. apply step_filter.
  - left. apply step_run.
  - left. apply step_page.
Qed.

Lemma ui_reachable_reachable (c : Config) : ui_reachable c -> reachable c.
Proof.
  induction 1 as [| c c' Hstep _ IH]; [apply reachable_mounted|].
  destruct (ui_step_step c c' Hstep) as [H | ->]; [|exact IH].
  exact (reachable_step c c' IH H).
Qed.

Lemma pending_runs_app (s : PageState) (l l' : list Task) (tr tr' : list Event) :
  pending_runs {| store := s; pool := l ++ l'; trace := tr |}
  = (pending_runs {| store := s; pool := l; trace := tr' |}
     + List.length (List.filter (fun t => is_run_request (awaiting t)) l'))%nat.
Proof.
  unfold pending_runs. simpl. rewrite List.filter_app, length_app. reflexivity.
Qed.

Lemma fetches_are_not_runs (new : list Task) :
  Forall FetchTask new ->
  List.filter (fun t => is_run_request (awaiting t)) new = [].
Proof.
  induction 1 as [| t new Ht _ IH]; [reflexivity|].
  simpl. destruct (FetchTask_request t Ht) as [_ ->]. exact IH.
Qed.

Lemma FetchEffect_RunInv (c c' : Config) :
  FetchEffect c c' -> RunInv c -> RunInv c'.
Proof.
  intros (A & B & C & D & _ & new & P & F & _) (Hk & Hn & Hrun & Hone).
  split; [|split; [|split]].
  - rewrite P. apply Forall_app. split; [exact Hk|].
    eapply Forall_impl; [|exact F]. intros t Ht. right. exact Ht.
  - unfold pending_runs in *. rewrite P, List.filter_app, length_app.
    rewrite (fetches_are_not_runs new F), A, Hn. simpl. lia.
  - rewrite A, B, C. exact Hrun.
  - rewrite B, C. exact Hone.
Qed.

Lemma ui_step_RunInv (c c' : Config) : ui_step c c' -> RunInv c -> RunInv c'.
Proof.
  intros Hstep Hinv.
  destruct Hstep as [c before after t o Hpool | c text Hg | c key Hg | c Hg
                    | c Hg | c page].
  - destruct Hinv as (Hk & Hn & Hrun & Hone).
    unfold pending_runs in Hn. rewrite Hpool in Hk, Hn.
    apply Forall_remove in Hk as [Ht Hk].
    rewrite List.filter_app in Hn. simpl in Hn.
    destruct Ht as [(f & Ht) | Ht].
    + destruct Ht as [At Ht'].
      rewrite At in Hn. simpl in Hn. rewrite length_app in Hn. simpl in Hn.
      destruct (isRunning (store c)) eqn:Erun; [|lia].
      destruct (Hrun eq_refl) as [Hres Herr].
      destruct (RunTask_effect t f o
                  {| store := store c; pool := before ++ after;
                     trace := trace c |} (conj At Ht'))
        as (A & B & _ & _ & new & P & F & _).
      simpl in B.
      split; [|split; [|split]].
      * rewrite P. apply Forall_app. split; [exact Hk|].
        eapply Forall_impl; [|exact F]. intros t' Ht''. right. exact Ht''.
      * unfold pending_runs. rewrite P, A. simpl.
        rewrite !List.filter_app, !length_app.
        rewrite (fetches_are_not_runs new F). simpl. lia.
      * rewrite A. discriminate.
      * destruct B as [B | B]; rewrite B; [left; exact Hres | right; exact Herr].
    + apply (FetchEffect_RunInv
               {| store := store c; pool := before ++ after; trace := trace c |}).
      * apply FetchTask_effect, Ht.
      * destruct (FetchTask_request t Ht) as [_ Et]. rewrite Et in Hn.
        split; [exact Hk | split; [|split; assumption]].
        unfold pending_runs. simpl. rewrite List.filter_app. exact Hn.
  - destruct Hinv as (Hk & Hn & Hrun & Hone).
    split; [exact Hk | split; [exact Hn | split; assumption]].
  - exact (FetchEffect_RunInv _ _ (handleKeyDown_effect _ key c) Hinv).
  - exact (FetchEffect_RunInv _ _ (handleFilter_effect _ c) Hinv).
  - destruct Hinv as (Hk & Hn & Hrun & Hone).
    unfold runButtonDisabled in Hg. rewrite Hg in Hn.
    destruct (handleRun_sync (store c) c) as (t & Ht & ->).
    split; [|split; [|split]]; simpl.
    + apply Forall_app. split; [exact Hk|].
      constructor; [|constructor]. left. eexists. exact Ht.
    + unfold pending_runs in *. simpl.
      rewrite List.filter_app, length_app, Hn. simpl.
      destruct Ht as [-> _]. reflexivity.
    + intros _. split; reflexivity.
    + left. reflexivity.
  - exact (FetchEffect_RunInv _ _ (handlePageChange_effect _ page c) Hinv).
Qed.

Lemma ui_reachable_RunInv (c : Config) : ui_reachable c -> RunInv c.
Proof.
  induction 1 as [| c c' Hstep _ IH].
  - apply (FetchEffect_RunInv initialConfig).
    + apply initialLoad_effect.
    + split; [constructor | split; [reflexivity | split]].
      * discriminate.
      * left. reflexivity.
  - exact (ui_step_RunInv c c' Hstep IH).
Qed.

(** X15. As long as the run button is disabled during a run, the banner
    never shows a summary and an error together, and it shows neither
    while a run is going on. *)
Theorem run_banner_exclusive (c : Config) :
  ui_reachable c ->
  (runResult (store c) = JNull \/ runError (store c) = JNull)
  /\ (isRunning (store c) = true ->
      runResult (store c) = JNull /\ runError (store c) = JNull).
Proof.
  intro H. apply ui_reachable_RunInv in H.
  destruct H as (_ & _ & Hrun & Hone). split; assumption.
Qed.

Lemma run_banner_exclusive_witness :
  (runResult (store (sync (BacktestPage.handleRun (store mounted)) mounted))
   = JNull
   \/ runError (store (sync (BacktestPage.handleRun (store mounted)) mounted))
      = JNull)
  /\ (isRunning (store (sync (BacktestPage.handleRun (store mounted)) mounted))
      = true ->
      runResult (store (sync (BacktestPage.handleRun (store mounted)) mounted))
      = JNull
      /\ runError (store (sync (BacktestPage.handleRun (store mounted)) mounted))
         = JNull).
Proof.
  apply (run_banner_exclusive
           (sync (BacktestPage.handleRun (store mounted)) mounted)).
  apply (ui_reachable_step mounted);
    [apply ui_reachable_mounted | apply ui_run; reflexivity].
Defined.

(** X16. As long as the run button is disabled during a run, [isRunning]
    tells exactly whether a run request is pending, and at most one is. *)
Theorem run_flag_counts_pending_runs (c : Config) :
  ui_reachable c ->
  pending_runs c = (if isRunning (store c) then 1 else 0)%nat.
Proof.
  intro H. apply ui_reachable_RunInv in H.
  destruct H as (_ & Hn & _). exact Hn.
Qed.

Lemma run_flag_counts_pending_runs_witness :
  pending_runs (sync (BacktestPage.handleRun (store mounted)) mounted) = 1%nat.
Proof.
  apply (run_flag_counts_pending_runs
           (sync (BacktestPage.handleRun (store mounted)) mounted)).
  apply (ui_reachable_step mounted);
    [apply ui_reachable_mounted | apply ui_run; reflexivity].
Defined.

Lemma page_never_throws_witness :
  uncaught (trace (sync (BacktestPage.handleRun (store mounted)) mounted)) = [].
Proof.
  apply (page_never_throws
           (sync (BacktestPage.handleRun (store mounted)) mounted)).
  apply (reachable_step mounted); [apply reachable_mounted | apply step_run].
Defined.

(* ================================================================= *)
(** ** More of the view *)


(** X19. The badge of an outcome always has a label: ["--"] when there is
    no outcome or an empty one, the outcome itself otherwise, in capitals
    for the three known outcomes.  It glows for a win and for a loss and
    for nothing else. *)
Theorem outcomeBadge_label (outcome : option string) :
  children (outcomeBadge outcome) <> ""
  /\ (glow (outcomeBadge outcome) = true
      <-> outcome = Some "win" \/ outcome = Some "loss").
Proof.
  destruct outcome as [o|];
    [|split; [discriminate | split; [discriminate | intros [H|H]; discriminate]]].
  unfold outcomeBadge, of_option, truthy.
  destruct (String.eqb_spec o "") as [E0|E0]; cbn [negb].
  { subst o. split; [discriminate|].
    split; [discriminate | intros [H|H]; discriminate]. }
  destruct (String.eqb_spec o "win") as [E|E].
  { subst o. split; [discriminate|]. split; [left; reflexivity | reflexivity]. }
  destruct (String.eqb_spec o "loss") as [E'|E'].
  { subst o. split; [discriminate|]. split; [right; reflexivity | reflexivity]. }
  destruct (String.eqb_spec o "neutral") as [E''|E''].
  { subst o. split; [discriminate|].
    split; [discriminate | intros [H|H]; discriminate]. }
  cbn [children glow]. split; [exact E0|]. split; [discriminate|].
  intros [H|H]; congruence.
Qed.

(** X20. The badge of an evaluation status always spells the status it
    was given; its variant is [default] unless the status is one of
    [completed], [insufficient] and [error]. *)
Theorem statusBadge_label (status : string) :
  children (statusBadge status) = status
  /\ glow (statusBadge status) = false
  /\ (variant (statusBadge status) = "default"
      <-> status <> "completed" /\ status <> "insufficient"
          /\ status <> "error").
Proof.
  unfold statusBadge.
  destruct (String.eqb_spec status "completed") as [E|E].
  { subst. repeat split; try discriminate. intros (H & _). contradiction. }
  destruct (String.eqb_spec status "insufficient") as [E'|E'].
  { subst. repeat split; try discriminate. intros (_ & H & _). contradiction. }
  destruct (String.eqb_spec status "error") as [E''|E''].
  { subst. repeat split; try discriminate. intros (_ & _ & H). contradiction. }
  repeat split; assumption.
Qed.

Lemma results_outcome_page (props : list (string * JsVal)) (l : list JsVal) :
  items_field props = Some l ->
  exists total page limit,
    results_outcome (respond (JObj props))
    = Resolve (JObj [("total", total); ("page", page); ("limit", limit);
                     ("items", JArr (List.map toCamelCase l))]).
Proof.
  intro H. unfold respond, results_outcome.
  cbn [data toCamelCase nullish member].
  rewrite !lookup_camel by reflexivity.
  unfold items_field in H. unfold js_or.
  destruct (lookup "items" props) as [v|].
  - destruct v as [| | [|] | n | s | l' | l' | l']; simpl in H |- *;
      try discriminate;
      try (injection H as <-; do 3 eexists; reflexivity).
    + destruct (n =? 0); simpl in H |- *; [|discriminate].
      injection H as <-. do 3 eexists; reflexivity.
    + destruct s; simpl in H |- *; [|discriminate].
      injection H as <-. do 3 eexists; reflexivity.
  - injection H as <-. do 3 eexists; reflexivity.
Qed.

(** X21. From the server to the screen: when the overall endpoint
    answers 404 to a performance fetch without a code, nothing is logged,
    both metrics are [null], and the panel shows the "no backtest data
    yet" text, not an error and not the spinner. *)
Theorem not_found_shows_no_data (err : JsVal) (c : Config) :
  http_status err = Some 404 ->
  exists t,
    pool (sync (BacktestPage.fetchPerformance None) c) = (pool c ++ [t])%list
    /\ awaiting t = overall_query
    /\ forall c',
        let c'' := sync (resume t (Reject err)) c' in
        performance_panel (store c'') = NoBacktestData
        /\ overallPerf (store c'') = JNull
        /\ stockPerf (store c'') = JNull
        /\ trace c'' = trace c'
        /\ pool c'' = pool c'.
Proof.
  intro Hstatus.
  destruct (fetchPerformance_sync None c) as (t & [At Ht] & ->).
  exists t. split; [reflexivity|]. split; [exact At|].
  intro c'. cbv zeta. specialize (Ht (Reject err) c').
  simpl in Ht. unfold is_not_found in Ht. rewrite Hstatus in Ht.
  simpl in Ht. rewrite Ht. repeat split.
Qed.

Lemma not_found_shows_no_data_witness :
  exists t,
    pool (sync (BacktestPage.fetchPerformance None) initialConfig)
    = (pool initialConfig ++ [t])%list
    /\ awaiting t = overall_query
    /\ forall c',
        let c'' := sync (resume t (Reject (server_error 404))) c' in
        performance_panel (store c'') = NoBacktestData
        /\ overallPerf (store c'') = JNull
        /\ stockPerf (store c'') = JNull
        /\ trace c'' = trace c'
        /\ pool c'' = pool c'.
Proof.
  apply (not_found_shows_no_data (server_error 404) initialConfig).
  reflexivity.
Defined.

(** X22. From the server to the screen: when the page of results that
    arrives has no item ([items] empty, missing or [null]), the rows are
    the empty array and the results section shows the "No Results" text:
    no table and no pagination control. *)
Theorem empty_page_shows_no_results
  (page : option Z) (code : option string)
  (props : list (string * JsVal)) (c : Config) :
  items_field props = Some [] ->
  exists t,
    pool (sync (BacktestPage.fetchResults page code) c) = (pool c ++ [t])%list
    /\ forall c',
        let c'' := sync (resume t (respond (JObj props))) c' in
        results (store c'') = JArr []
        /\ results_section (store c'') = NoResults
        /\ trace c'' = trace c'.
Proof.
  intro Hitems.
  destruct (fetchResults_sync page code c) as (t & [_ Ht] & ->).
  exists t. split; [reflexivity|].
  intro c'. cbv zeta. rewrite Ht.
  destruct (results_outcome_page props [] Hitems) as (total & pg & limit & ->).
  repeat split.
Qed.

Lemma empty_page_shows_no_results_witness :
  exists t,
    pool (sync (BacktestPage.fetchResults (Some 1) None) initialConfig)
    = (pool initialConfig ++ [t])%list
    /\ forall c',
        let c'' := sync (resume t (respond (JObj [("total", JNum 0);
                                                  ("items", JNull)]))) c' in
        results (store c'') = JArr []
        /\ results_section (store c'') = NoResults
        /\ trace c'' = trace c'.
Proof.
  apply (empty_page_shows_no_results (Some 1) None
           [("total", JNum 0); ("items", JNull)] initialConfig).
  reflexivity.
Defined.
